(** * visualizer.py: dependency graph of a Debian package

    A shallow embedding of [src/visualizer.py].  The program asks
    [apt-cache depends] for the direct dependencies of a package, follows
    them recursively up to a depth bound while remembering the packages it
    has already expanded, and renders the collected mapping as PlantUML
    text.

    Conventions of the embedding:
    - a Python [str] is a Rocq [string]; a character is a code point in
      the range 0..255, which covers everything [apt-cache] prints about
      package names;
    - a Python [set] of strings is a [gset string]; the order in which
      CPython iterates over a set of strings depends on the hashes of the
      run, so the development is parametric in it ([SetOrder]);
    - a Python [dict] is an association list in insertion order with
      unique keys;
    - [subprocess.run(..., capture_output=True, text=True)] is a function
      from the argument vector to the completed process; no [check=True]
      is passed, so a non-zero return code raises nothing;
    - the closure variables [dependencies] and [visited] of
      [fetch_dependencies] are threaded through [get_deps] as an explicit
      state, together with the log of the commands that were run;
    - [print], [open(...).write] and [sys.exit] of [main] become a list of
      events and an exit status.

    [main] is the run in which the command line was parsed and nothing
    raises; [main_io] adds the ways in which a run is cut short: the
    three ends of [parse_args], and [subprocess.run], [with_suffix] and
    [open] raising.  The traversal itself is stated for an [apt-cache]
    that can be run.  Not modelled: the recursion limit of the
    interpreter and the parsing done by [argparse]. *)

From Stdlib Require Import ZArith Ascii String.
From stdpp Require Import gmap strings list.

#[local] Set Warnings "-clear-no-such-hyp".
Local Open Scope Z_scope.

(** ** Python string primitives *)

Module PyStr.

Definition LF : string := String "010"%char EmptyString.
Definition quote : string := String "034"%char EmptyString.

(** [str.isspace] on one character (code points below 256). *)
Definition is_space (c : ascii) : bool :=
  let n := N_of_ascii c in
  ((9 <=? n) && (n <=? 13) || (28 <=? n) && (n <=? 31)
   || (n =? 32) || (n =? 133) || (n =? 160))%N.

(** The line boundaries of [str.splitlines] (code points below 256);
    the pair CR LF is handled in [splitlines_go]. *)
Definition is_linebreak (c : ascii) : bool :=
  let n := N_of_ascii c in
  ((10 <=? n) && (n <=? 13) || (28 <=? n) && (n <=? 30) || (n =? 133))%N.

Definition is_CR (c : ascii) : bool := (N_of_ascii c =? 13)%N.
Definition is_LF (c : ascii) : bool := (N_of_ascii c =? 10)%N.

(** [s.lstrip()] *)
Fixpoint lstrip (s : string) : string :=
  match s with
  | EmptyString => EmptyString
  | String c s' => if is_space c then lstrip s' else s
  end.

(** [s.rstrip()] *)
Fixpoint rstrip (s : string) : string :=
  match s with
  | EmptyString => EmptyString
  | String c s' =>
      match rstrip s' with
      | EmptyString => if is_space c then EmptyString else String c EmptyString
      | r => String c r
      end
  end.

(** [s.strip()] *)
Definition strip (s : string) : string := rstrip (lstrip s).

(** [s.startswith(p)] *)
Definition startswith (s p : string) : bool := String.prefix p s.

(** [s.splitlines()]: [cur] holds the characters of the current line,
    last one first. *)
Fixpoint splitlines_go (cur : string) (s : string) : list string :=
  match s with
  | EmptyString =>
      match cur with
      | EmptyString => []
      | _ => [String.rev cur]
      end
  | String c s' =>
      if is_linebreak c then
        String.rev cur ::
          match s' with
          | String c' s'' =>
              if is_CR c && is_LF c' then splitlines_go EmptyString s''
              else splitlines_go EmptyString s'
          | EmptyString => splitlines_go EmptyString s'
          end
      else splitlines_go (String c cur) s'
  end.

Definition splitlines (s : string) : list string :=
  splitlines_go EmptyString s.

(** [s.split(sep)] for a non-empty separator: occurrences are found
    from left to right and do not overlap.  [skip] counts the
    characters of a separator that are still to be consumed. *)
Fixpoint split_go (sep : string) (skip : nat) (cur : string) (s : string)
  : list string :=
  match s with
  | EmptyString => [String.rev cur]
  | String c s' =>
      match skip with
      | S k => split_go sep k cur s'
      | O =>
          if String.prefix sep s
          then String.rev cur
                 :: split_go sep (Nat.pred (String.length sep)) EmptyString s'
          else split_go sep O (String c cur) s'
      end
  end.

Definition split (s sep : string) : list string :=
  split_go sep O EmptyString s.

End PyStr.

(** ** The environment of the program *)

(** [subprocess.CompletedProcess] as returned by [subprocess.run] with
    [capture_output=True, text=True]. *)
Record CompletedProcess := mkCompletedProcess {
  returncode : Z;
  stdout : string;
  stderr : string
}.

(** The operating system seen through [subprocess.run]: the completed
    process for an argument vector. *)
Class Subprocess := {
  subprocess_run : list string -> CompletedProcess
}.

(** The order in which the interpreter enumerates a set of strings
    ([for dep in package_deps]): some enumeration without repetition of
    exactly the members of the set. *)
Class SetOrder := {
  set_iter : gset string -> list string;
  set_iter_perm : forall s, set_iter s ≡ₚ elements s
}.

(** The two [pathlib] operations used by [main], on paths printed as
    strings: [p.with_suffix(ext)] and [str(p.parent)]. *)
Class PathLib := {
  with_suffix : string -> string -> string;
  parent : string -> string
}.

(** ** Python dictionaries with string keys *)

Abbreviation Dict := (list (string * gset string)).

(** [d[k] = v]: an existing key keeps its position, a new key goes last. *)
Fixpoint dict_setitem (d : Dict) (k : string) (v : gset string) : Dict :=
  match d with
  | [] => [(k, v)]
  | (k', v') :: d' =>
      if decide (k = k') then (k, v) :: d'
      else (k', v') :: dict_setitem d' k v
  end.

(** [d.get(k)] *)
Fixpoint dict_get (d : Dict) (k : string) : option (gset string) :=
  match d with
  | [] => None
  | (k', v') :: d' => if decide (k = k') then Some v' else dict_get d' k
  end.

(** [list(d.keys())] *)
Definition dict_keys (d : Dict) : list string := d.*1.

(** [not d] *)
Definition dict_is_empty (d : Dict) : bool :=
  match d with [] => true | _ :: _ => false end.

(** ** [fetch_dependencies] *)

(** Lines 33-38: the dependency names in the output of
    [apt-cache depends].  A line counts when, stripped, it starts with
    [Depends:]; the name is what follows the first [Depends:] of the line,
    up to a second one if there is any, stripped.  The index [1] is
    always in range there (lemma [depends_field_in_range] below), so the
    [None] branch, where Python would raise [IndexError], is never
    taken. *)
Definition parse_line (package_deps : gset string) (line : string)
  : gset string :=
  if PyStr.startswith (PyStr.strip line) "Depends:" then
    match PyStr.split line "Depends:" !! 1%nat with
    | Some field => {[ PyStr.strip field ]} ∪ package_deps
    | None => package_deps
    end
  else package_deps.

Definition parse_depends (out : string) : gset string :=
  foldl parse_line ∅ (PyStr.splitlines out).

(** The state shared by all calls of [get_deps]: the two closure
    variables of [fetch_dependencies], and the argument vectors of the
    commands run so far, oldest first. *)
Record State := mkState {
  dependencies : Dict;
  visited : gset string;
  calls : list (list string)
}.

Definition initial_state : State :=
  {| dependencies := []; visited := ∅; calls := [] |}.

(** A [for] loop whose body may fail to return. *)
Fixpoint for_each {A S : Type} (body : A -> S -> option S)
  (l : list A) (st : S) : option S :=
  match l with
  | [] => Some st
  | x :: l' =>
      match body x st with
      | Some st' => for_each body l' st'
      | None => None
      end
  end.

Definition apt_cache_depends (package : string) : list string :=
  ["apt-cache"; "depends"; package]%string.

(** Lines 18-42.  [fuel] bounds the nesting of calls; [None] means that
    the bound was too small, never that the program failed. *)
Fixpoint get_deps `{Subprocess} `{SetOrder} (max_depth : Z) (fuel : nat)
  (package : string) (current_depth : Z) (st : State) : option State :=
  match fuel with
  | O => None
  | S fuel' =>
      if bool_decide (current_depth > max_depth)
         || bool_decide (package ∈ visited st)
      then Some st
      else
        let result := subprocess_run (apt_cache_depends package) in
        let package_deps := parse_depends (stdout result) in
        let st' :=
          {| dependencies :=
               dict_setitem (dependencies st) package package_deps;
             visited := {[ package ]} ∪ visited st;
             calls := calls st ++ [apt_cache_depends package] |} in
        for_each
          (fun dep => get_deps max_depth fuel' dep (current_depth + 1))
          (set_iter package_deps) st'
  end.

(** The deepest nesting the calls of [get_deps] can reach: the call at
    depth [max_depth + 1] returns at once. *)
Definition nesting_bound (max_depth : Z) : nat := S (Z.to_nat max_depth).

(** Line 44 with an explicit bound on the nesting. *)
Definition fetch_dependencies_run `{Subprocess} `{SetOrder} (fuel : nat)
  (package_name : string) (max_depth : Z) (repo_url : string)
  : option State :=
  get_deps max_depth fuel package_name 1 initial_state.

(** The state when [get_deps(package_name, 1)] has returned;
    [fetch_dependencies_run_total] shows that the bound is enough, so
    that the second branch is never taken. *)
Definition fetch_dependencies_state `{Subprocess} `{SetOrder}
  (package_name : string) (max_depth : Z) (repo_url : string) : State :=
  match fetch_dependencies_run (nesting_bound max_depth)
          package_name max_depth repo_url with
  | Some st => st
  | None => initial_state
  end.

(** Lines 6-45. *)
Definition fetch_dependencies `{Subprocess} `{SetOrder}
  (package_name : string) (max_depth : Z) (repo_url : string) : Dict :=
  dependencies (fetch_dependencies_state package_name max_depth repo_url).

(** The dependency set that [get_deps] computes for a package (lines
    29-38): the metadata source as the traversal sees it. *)
Definition direct_dependencies `{Subprocess} (package : string)
  : gset string :=
  parse_depends (stdout (subprocess_run (apt_cache_depends package))).

(** The state after lines 27-39 for a package that passed the test of
    line 25. *)
Definition expand `{Subprocess} (package : string) (st : State) : State :=
  {| dependencies :=
       dict_setitem (dependencies st) package (direct_dependencies package);
     visited := {[ package ]} ∪ visited st;
     calls := calls st ++ [apt_cache_depends package] |}.

(** The output of a query that declares no dependency at all: none of
    its lines is a [Depends:] line.  An unknown package gives such an
    output, the empty one. *)
Definition no_dependency_information (out : string) : Prop :=
  Forall (fun line => PyStr.startswith (PyStr.strip line) "Depends:" = false)
         (PyStr.splitlines out).

(** ** [build_puml_graph] *)

(** Line 57: the text appended for one dependency. *)
Definition edge_line (package dep : string) : string :=
  PyStr.quote +:+ package +:+ PyStr.quote +:+ " --> "
    +:+ PyStr.quote +:+ dep +:+ PyStr.quote +:+ PyStr.LF.

Definition startuml : string := "@startuml" +:+ PyStr.LF.
Definition enduml : string := "@enduml".

(** Lines 47-59. *)
Definition build_puml_graph `{SetOrder} (dependencies : Dict) : string :=
  let graph := startuml in
  let graph :=
    foldl (fun graph '(package, deps) =>
             foldl (fun graph dep => graph +:+ edge_line package dep)
                   graph (set_iter deps))
          graph dependencies in
  graph +:+ enduml.

(** ** [main] *)

(** The parsed command line (lines 92-99); [output] is the path as it
    prints. *)
Record Args := mkArgs {
  plantuml_path : string;
  package : string;
  output : string;
  depth : Z;
  repo : string
}.

(** What the process does to the outside, in order; the texts are the
    arguments of [print], without the newline it adds. *)
Inductive Event :=
| Run (argv : list string)
| WriteFile (path content : string)
| PrintErr (text : string)
| PrintOut (text : string).

(** Lines 61-69, when the file can be opened and written;
    [save_puml_file_io] below has the other case. *)
Definition save_puml_file (puml_content file_path : string) : list Event :=
  [WriteFile file_path puml_content].

(** Lines 79-82: the command that renders the graph. *)
Definition plantuml_command `{PathLib} (puml_path output_path
  plantuml_path : string) : list string :=
  [plantuml_path; puml_path; "-tpng"; "-o"; parent output_path]%string.

(** Lines 71-86, when [subprocess.run] returns: the events, and the
    status when [sys.exit] is called; [render_graph_io] below has the
    other case. *)
Definition render_graph `{Subprocess} `{PathLib} (puml_path output_path
  plantuml_path : string) : list Event * option Z :=
  let command := plantuml_command puml_path output_path plantuml_path in
  let result := subprocess_run command in
  if bool_decide (returncode result ≠ 0) then
    ([Run command;
      PrintErr ("Error during PlantUML rendering: " +:+ stderr result)],
     Some 1)
  else ([Run command], None).

Definition no_dependencies_message (args : Args) : string :=
  "No dependencies found for package " +:+ package args.

(** Lines 101-118: the events and the exit status of a run in which
    nothing raises; [main_io] below has the runs that are cut short. *)
Definition main `{Subprocess} `{SetOrder} `{PathLib} (args : Args)
  : list Event * Z :=
  let st := fetch_dependencies_state (package args) (depth args) (repo args) in
  let dependencies := dependencies st in
  let queries := Run <$> calls st in
  if dict_is_empty dependencies then
    (queries ++ [PrintErr (no_dependencies_message args)], 1)
  else
    let puml_content := build_puml_graph dependencies in
    let puml_path := with_suffix (output args) ".puml" in
    let written := save_puml_file puml_content puml_path in
    match render_graph puml_path (output args) (plantuml_path args) with
    | (rendered, Some status) => (queries ++ written ++ rendered, status)
    | (rendered, None) =>
        (queries ++ written ++ rendered
           ++ [PrintOut ("Graph successfully saved to " +:+ output args)], 0)
    end.

(** ** Notions used in the statements *)

(** What the three components of the state have to do with each other
    between two statements of [get_deps]: the keys of [dependencies] are
    pairwise distinct and are exactly the visited packages, in the order
    in which they were queried, and each key is mapped to what the query
    for it gave. *)
Record consistent `{Subprocess} (st : State) : Prop := {
  keys_nodup : NoDup (dict_keys (dependencies st));
  keys_visited : forall p, p ∈ visited st <-> p ∈ dict_keys (dependencies st);
  keys_calls : calls st = apt_cache_depends <$> dict_keys (dependencies st);
  keys_values : forall p, p ∈ dict_keys (dependencies st) ->
    dict_get (dependencies st) p = Some (direct_dependencies p)
}.

(** The (package, dependency) pairs of a graph, in the order in which
    [build_puml_graph] meets them. *)
Definition edges `{SetOrder} (dependencies : Dict) : list (string * string) :=
  '(package, deps) ← dependencies; (fun dep => (package, dep)) <$> set_iter deps.

(** [''.join(parts)] *)
Definition join (parts : list string) : string :=
  foldr String.append EmptyString parts.

(** The source [base] with the answer for one package replaced. *)
Definition with_answer (base : Subprocess) (package : string)
  (answer : CompletedProcess) : Subprocess :=
  {| subprocess_run := fun argv =>
       if decide (argv = apt_cache_depends package) then answer
       else @subprocess_run base argv |}.

(** The level at which a package lies below the starting package: the
    starting package is at level 1, a dependency of a package one level
    further down.  A package can be at several levels. *)
Inductive at_level `{Subprocess} (start : string) : Z -> string -> Prop :=
| at_level_start : at_level start 1 start
| at_level_dep level p q :
    at_level start level p -> q ∈ direct_dependencies p ->
    at_level start (level + 1) q.

(** ** Concrete environments *)

(** One admissible enumeration order: the one of [elements]. *)
Definition elements_order : SetOrder :=
  {| set_iter := elements; set_iter_perm := fun s => reflexivity (elements s) |}.

(** What [apt-cache depends] prints for a package with the given
    dependencies: the name, then one indented [Depends:] line each. *)
Definition apt_output (package : string) (deps : list string) : string :=
  package +:+ PyStr.LF
    +:+ foldr (fun dep out => "  Depends: " +:+ dep +:+ PyStr.LF +:+ out)
              EmptyString deps.

(** What the command leaves when it does not know the package: nothing on
    the standard output, a complaint on the standard error, status 100. *)
Definition apt_unknown : CompletedProcess :=
  {| returncode := 100; stdout := EmptyString;
     stderr := "E: No packages found" |}.

Definition apt_known (package : string) (deps : list string)
  : CompletedProcess :=
  {| returncode := 0; stdout := apt_output package deps;
     stderr := EmptyString |}.

(** A package index given as a table; every other command, the renderer
    included, succeeds silently. *)
Definition table_run (table : list (string * list string))
  (argv : list string) : CompletedProcess :=
  match argv with
  | [cmd; sub; package] =>
      if bool_decide (cmd = "apt-cache"%string ∧ sub = "depends"%string) then
        match list_find (fun entry => entry.1 = package) table with
        | Some (_, (_, deps)) => apt_known package deps
        | None => apt_unknown
        end
      else {| returncode := 0; stdout := EmptyString; stderr := EmptyString |}
  | _ => {| returncode := 0; stdout := EmptyString; stderr := EmptyString |}
  end.

Definition table_source (table : list (string * list string)) : Subprocess :=
  {| subprocess_run := table_run table |}.

(** A depends on B and B depends on A. *)
Definition cyclic_source : Subprocess :=
  table_source [("A", ["B"]); ("B", ["A"])]%string.

(** A lists itself among its dependencies. *)
Definition selfish_source : Subprocess :=
  table_source [("A", ["A"; "B"])]%string.

(** The index knows no package at all. *)
Definition empty_source : Subprocess := table_source [].

(** app needs libfoo and libbar, libbar needs libfoo. *)
Definition app_source : Subprocess :=
  table_source [("app", ["libfoo"; "libbar"]); ("libfoo", []);
                ("libbar", ["libfoo"])]%string.

(** [pathlib] on file names that have neither a directory nor a suffix:
    the suffix is appended, the parent is the current directory. *)
Definition flat_paths : PathLib :=
  {| with_suffix := fun p ext => p +:+ ext; parent := fun _ => "."%string |}.


(** app needs libfoo and libbar, libbar needs libfoo, and the index does
    not know libfoo. *)
Definition orphan_source : Subprocess :=
  table_source [("app", ["libfoo"; "libbar"]); ("libbar", ["libfoo"])]%string.

(** B is needed by A directly and by C, D is needed by B, and the index
    does not know F. *)
Definition shortcut_source : Subprocess :=
  table_source [("A", ["B"; "C"; "F"]); ("C", ["B"]); ("B", ["D"]);
                ("D", ["E"]); ("E", [])]%string.

(** The graph of app, libfoo and libbar. *)
Definition app_graph : Dict :=
  [("app", {[ "libfoo"; "libbar" ]}); ("libfoo", ∅); ("libbar", {[ "libfoo" ]})].

(** The default of [--repo]. *)
Definition ubuntu_archive : string := "http://archive.ubuntu.com/ubuntu".

(** A command line that names a package the index does not know. *)
Definition unknown_package_args : Args :=
  {| plantuml_path := "plantuml"; package := "nosuch"; output := "graph";
     depth := 3; repo := ubuntu_archive |}.

(** An answer of [apt-cache depends] with the kinds of lines it prints:
    alternatives, other relations, a virtual package and its providers. *)
Definition vim_output : string :=
  join ((fun line => line +:+ PyStr.LF) <$>
    [ "vim";
      "  Depends: vim-common";
      " |Depends: libacl1";
      "  Depends: vim-runtime";
      "  PreDepends: dpkg";
      "  Depends: <python3-interpreter>";
      "    python3";
      "  Suggests: ctags";
      "  Depends: vim-common" ]%string).

(** ** Notions used in the further properties *)

(** All characters of a string pass a test. *)
Fixpoint all_chars (P : ascii -> bool) (s : string) : bool :=
  match s with
  | EmptyString => true
  | String c s' => P c && all_chars P s'
  end.

(** No character at which [str.splitlines] would break the string. *)
Definition no_linebreak (s : string) : bool :=
  all_chars (fun c => negb (PyStr.is_linebreak c)) s.

(** Only characters that [str.strip] removes. *)
Definition all_space (s : string) : bool := all_chars PyStr.is_space s.

(** No capital D, the first character of [Depends:]; names of Debian
    packages are in lower case. *)
Definition no_capital_D (s : string) : bool :=
  all_chars (fun c => negb (Ascii.eqb c "D")) s.

(** Line 57 without the newline that ends it. *)
Definition edge_statement (package dep : string) : string :=
  PyStr.quote +:+ package +:+ PyStr.quote +:+ " --> "
    +:+ PyStr.quote +:+ dep +:+ PyStr.quote.

(** No package name of the graph, key or dependency, has a line break. *)
Definition clean_names (G : Dict) : Prop :=
  Forall (fun entry : string * gset string =>
            no_linebreak entry.1 = true
            /\ forall dep, dep ∈ entry.2 -> no_linebreak dep = true) G.

(** The source [orphan_source] when the query for libfoo ends with
    status 0 and prints nothing at all. *)
Definition quiet_orphan_source : Subprocess :=
  with_answer orphan_source "libfoo"
    {| returncode := 0; stdout := EmptyString; stderr := EmptyString |}.

(** A command line with depth bound zero. *)
Definition zero_depth_args : Args :=
  {| plantuml_path := "plantuml"; package := "app"; output := "graph";
     depth := 0; repo := ubuntu_archive |}.

(** A command line for app with depth bound two. *)
Definition app_args : Args :=
  {| plantuml_path := "plantuml"; package := "app"; output := "graph";
     depth := 2; repo := ubuntu_archive |}.

(** Within the depth bound: at some level from 1 to [max_depth] below the
    starting package. *)
Definition within_bound `{Subprocess} (start : string) (max_depth : Z)
  (p : string) : Prop :=
  exists level, 1 <= level <= max_depth /\ at_level start level p.

(** The visited packages have all their dependencies visited, apart from
    the packages of [stack], whose loops are still running. *)
Definition closed_except `{Subprocess} (stack : gset string) (st : State)
  : Prop :=
  forall q, q ∈ visited st -> q ∉ stack ->
    direct_dependencies q ⊆ visited st.

(** All packages of the index behind [shortcut_source]. *)
Definition shortcut_packages : gset string :=
  {[ "A"; "B"; "C"; "D"; "E"; "F" ]}.

(** Another admissible enumeration order: the one of [elements],
    backwards. *)
Definition reversed_order : SetOrder :=
  {| set_iter := fun s => reverse (elements s);
     set_iter_perm := fun s => reverse_Permutation (elements s) |}.

(** A graph with a line feed inside the name of its one key. *)
Definition linebreak_graph : Dict :=
  [(String "a" (String "010" (String "b" EmptyString)), {[ "c" ]})].

(** ** A run with the ways in which it is cut short *)

(** How [parser.parse_args()] (line 99) ends: it returns the arguments,
    or it prints the usage and a complaint and exits with status 2, or,
    asked for help, it prints the help and exits with status 0. *)
Inductive Parse :=
| Parsed (args : Args)
| UsageError (complaint : string)
| HelpRequested (help : string).

(** The calls of [main] and of the functions it calls that can raise; the
    program catches nothing. *)
Inductive Fault :=
| InSubprocessRun
| InWithSuffix
| InOpen.

(** How a run ends: with a status passed to [sys.exit] or by reaching the
    end of [main], or with an exception that nobody catches. *)
Inductive Ending :=
| Exited (status : Z)
| Raised (fault : Fault).

(** The status the shell sees: an uncaught exception gives 1. *)
Definition exit_status (ending : Ending) : Z :=
  match ending with
  | Exited status => status
  | Raised _ => 1
  end.

(** What can go wrong outside the program: [subprocess.run] raises
    instead of returning (the program is missing or cannot be executed,
    its output cannot be decoded); [open(path, 'w')] or the write raises
    (missing directory, no permission); [with_suffix] raises on a path
    without a name. *)
Class Faults := {
  run_returns : list string -> bool;
  open_succeeds : string -> bool;
  has_name : string -> bool
}.

(** The commands of the traversal that are run before the first one for
    which [subprocess.run] raises, and whether all of them returned.
    [get_deps] catches nothing, so the traversal is the one above up to
    that command and is over with it. *)
Fixpoint run_until_fault `{Faults} (commands : list (list string))
  : list (list string) * bool :=
  match commands with
  | [] => ([], true)
  | command :: commands' =>
      if run_returns command then
        let '(started, all) := run_until_fault commands' in
        (command :: started, all)
      else ([], false)
  end.

(** Lines 61-69 with their failure: nothing is written when the file
    cannot be opened. *)
Definition save_puml_file_io `{Faults} (puml_content file_path : string)
  : list Event * option Fault :=
  if open_succeeds file_path then
    (save_puml_file puml_content file_path, None)
  else ([], Some InOpen).

(** Lines 71-86 with their failure: the events, and how the run ends
    there when it does not go on. *)
Definition render_graph_io `{Subprocess} `{PathLib} `{Faults}
  (puml_path output_path plantuml_path : string)
  : list Event * option Ending :=
  if run_returns (plantuml_command puml_path output_path plantuml_path) then
    match render_graph puml_path output_path plantuml_path with
    | (rendered, Some status) => (rendered, Some (Exited status))
    | (rendered, None) => (rendered, None)
    end
  else ([], Some (Raised InSubprocessRun)).

(** Lines 88-118 with every way out: the events of the run, without the
    traceback of an uncaught exception, and how it ends. *)
Definition main_io `{Subprocess} `{SetOrder} `{PathLib} `{Faults}
  (cmdline : Parse) : list Event * Ending :=
  match cmdline with
  | UsageError complaint => ([PrintErr complaint], Exited 2)
  | HelpRequested help => ([PrintOut help], Exited 0)
  | Parsed args =>
      let st :=
        fetch_dependencies_state (package args) (depth args) (repo args) in
      let '(started, all) := run_until_fault (calls st) in
      if negb all then (Run <$> started, Raised InSubprocessRun)
      else
        let dependencies := dependencies st in
        let queries := Run <$> calls st in
        if dict_is_empty dependencies then
          (queries ++ [PrintErr (no_dependencies_message args)], Exited 1)
        else
          let puml_content := build_puml_graph dependencies in
          if negb (has_name (output args)) then (queries, Raised InWithSuffix)
          else
            let puml_path := with_suffix (output args) ".puml" in
            match save_puml_file_io puml_content puml_path with
            | (written, Some fault) => (queries ++ written, Raised fault)
            | (written, None) =>
                match render_graph_io puml_path (output args)
                        (plantuml_path args) with
                | (rendered, Some ending) =>
                    (queries ++ written ++ rendered, ending)
                | (rendered, None) =>
                    (queries ++ written ++ rendered
                       ++ [PrintOut ("Graph successfully saved to "
                                       +:+ output args)], Exited 0)
                end
            end
  end.

(** Nothing goes wrong. *)
Definition no_faults : Faults :=
  {| run_returns := fun _ => true; open_succeeds := fun _ => true;
     has_name := fun _ => true |}.

(** The directory of the output does not exist: no file can be opened
    for writing. *)
Definition missing_directory : Faults :=
  {| run_returns := fun _ => true; open_succeeds := fun _ => false;
     has_name := fun _ => true |}.

(** The renderer is not installed: only [apt-cache] can be run. *)
Definition missing_renderer : Faults :=
  {| run_returns := fun argv => bool_decide (head argv = Some "apt-cache");
     open_succeeds := fun _ => true; has_name := fun _ => true |}.

(** * Properties *)

(** ** Strings *)

Section PyStrFacts.
Import PyStr.

Lemma prefix_nil_r p : String.prefix p EmptyString = true -> p = EmptyString.
Proof. by destruct p. Qed.

Lemma prefix_rstrip p t :
  String.prefix p (rstrip t) = true -> String.prefix p t = true.
Proof.
  revert p. induction t as [|c t IH]; intros p; [done|].
  destruct p as [|a p]; [done|]. simpl.
  destruct (rstrip t) as [|c' r] eqn:Hr.
  - destruct (is_space c); [done|]. simpl.
    destruct (ascii_dec a c); [|done].
    intros ->%prefix_nil_r. by destruct t.
  - simpl. destruct (ascii_dec a c); [|done]. apply IH.
Qed.

Lemma lstrip_suffix s : exists ws, s = ws +:+ lstrip s.
Proof.
  induction s as [|c s [ws IH]]; [by exists EmptyString|]. simpl.
  destruct (is_space c).
  - exists (String c ws). change (String c s = String c (ws +:+ lstrip s)).
    by f_equal.
  - by exists EmptyString.
Qed.

Lemma split_go_length sep skip cur s :
  (1 <= length (split_go sep skip cur s))%nat.
Proof.
  revert skip cur.
  induction s as [|c s IH]; intros skip cur; cbn [split_go]; [simpl; lia|].
  destruct skip; [|apply IH].
  destruct (String.prefix sep (String c s)); [simpl; lia|apply IH].
Qed.

Lemma split_go_found sep t ws cur :
  sep <> EmptyString -> String.prefix sep t = true ->
  (2 <= length (split_go sep O cur (ws +:+ t)))%nat.
Proof.
  intros Hsep Ht. revert cur.
  induction ws as [|a ws IH]; intros cur.
  - destruct t as [|c t]; [by apply prefix_nil_r in Ht|].
    change (EmptyString +:+ String c t) with (String c t).
    cbn [split_go]. rewrite Ht. cbn [length].
    pose proof (split_go_length sep (Nat.pred (String.length sep))
                  EmptyString t). lia.
  - change (String a ws +:+ t) with (String a (ws +:+ t)). cbn [split_go].
    destruct (String.prefix sep (String a (ws +:+ t))); [|apply IH].
    cbn [length].
    pose proof (split_go_length sep (Nat.pred (String.length sep))
                  EmptyString (ws +:+ t)). lia.
Qed.

(** Line 37 never raises [IndexError]: a line that passed the test of
    line 36 contains the separator, so [split] gives at least two
    fields. *)
Lemma depends_field_in_range line :
  startswith (strip line) "Depends:" = true ->
  is_Some (split line "Depends:" !! 1%nat).
Proof.
  unfold startswith, strip. intros H%prefix_rstrip.
  destruct (lstrip_suffix line) as [ws Hws].
  apply lookup_lt_is_Some. unfold split. rewrite Hws.
  by apply split_go_found.
Qed.

End PyStrFacts.

Example splitlines_crlf :
  PyStr.splitlines (String "a" (String "013" (String "010" (String "010"
                      (String "b" (String "013" (String "c" PyStr.LF)))))))
  = ["a"; EmptyString; "b"; "c"].
Proof. reflexivity. Qed.

Example split_overlap : PyStr.split "aaa,a" "aa" = [EmptyString; "a,a"].
Proof. reflexivity. Qed.

Example split_trailing : PyStr.split "  Depends:" "Depends:" = ["  "; EmptyString].
Proof. reflexivity. Qed.

Example strip_both : PyStr.strip "   libc6 (x)  " = "libc6 (x)".
Proof. reflexivity. Qed.

Example parse_depends_vim :
  parse_depends vim_output
  = {[ "vim-common"; "vim-runtime"; "<python3-interpreter>" ]}.
Proof. vm_compute. reflexivity. Qed.

Lemma parse_depends_no_information out :
  no_dependency_information out -> parse_depends out = ∅.
Proof.
  unfold no_dependency_information, parse_depends.
  generalize (∅ : gset string) as acc.
  induction (PyStr.splitlines out) as [|line lines IH]; intros acc Hall;
    [done|].
  inversion_clear Hall as [|? ? Hline Hlines]. simpl.
  unfold parse_line at 2. rewrite Hline. by apply IH.
Qed.

Lemma parse_depends_empty : parse_depends EmptyString = ∅.
Proof. reflexivity. Qed.

Example parse_depends_unknown : parse_depends (stdout apt_unknown) = ∅.
Proof. apply parse_depends_empty. Qed.

(** ** Loops *)

Section Loop.
Context {A S : Type}.
Implicit Types (body : A -> S -> option S) (l : list A).

Lemma for_each_total body l st :
  (forall x s, is_Some (body x s)) -> is_Some (for_each body l st).
Proof.
  intros Hbody. revert st. induction l as [|x l IH]; intros st; simpl; [eauto|].
  destruct (Hbody x st) as [st' ->]. apply IH.
Qed.

Lemma for_each_impl body1 body2 l st st' :
  (forall x s s', body1 x s = Some s' -> body2 x s = Some s') ->
  for_each body1 l st = Some st' -> for_each body2 l st = Some st'.
Proof.
  intros Himpl. revert st. induction l as [|x l IH]; intros st; simpl; [done|].
  destruct (body1 x st) as [s1|] eqn:H1; [|done].
  rewrite (Himpl _ _ _ H1). apply IH.
Qed.

Lemma for_each_inv (P : S -> Prop) body l st st' :
  (forall x s s', P s -> body x s = Some s' -> P s') ->
  P st -> for_each body l st = Some st' -> P st'.
Proof.
  intros Hbody. revert st. induction l as [|x l IH]; intros st HP; simpl.
  - by intros [= <-].
  - destruct (body x st) as [s1|] eqn:H1; [|done]. apply IH. eauto.
Qed.

Lemma for_each_skip body l st :
  (forall x, body x st = Some st) -> for_each body l st = Some st.
Proof.
  intros Hbody. induction l as [|x l IH]; simpl; [done|]. by rewrite Hbody.
Qed.

End Loop.

(** ** Dictionaries *)

Lemma dict_setitem_fresh (d : Dict) k v :
  k ∉ dict_keys d -> dict_setitem d k v = d ++ [(k, v)].
Proof.
  unfold dict_keys. induction d as [|[k' v'] d IH]; simpl; [done|].
  intros [Hne Hk]%not_elem_of_cons. rewrite decide_False by done.
  by rewrite IH.
Qed.

Lemma dict_get_app_l (d1 d2 : Dict) k :
  k ∈ dict_keys d1 -> dict_get (d1 ++ d2) k = dict_get d1 k.
Proof.
  unfold dict_keys. induction d1 as [|[k' v'] d1 IH]; simpl.
  - by intros ?%elem_of_nil.
  - destruct (decide (k = k')); [done|].
    intros [?|Hin]%elem_of_cons; [done|by apply IH].
Qed.

Lemma dict_get_app_r (d1 d2 : Dict) k :
  k ∉ dict_keys d1 -> dict_get (d1 ++ d2) k = dict_get d2 k.
Proof.
  unfold dict_keys. induction d1 as [|[k' v'] d1 IH]; simpl; [done|].
  intros [Hne Hk]%not_elem_of_cons. rewrite decide_False by done. by apply IH.
Qed.

(** ** The traversal *)

Section Traversal.
Context `{Subprocess} `{SetOrder} (max_depth : Z).

Lemma get_deps_return fuel package current_depth st :
  current_depth > max_depth \/ package ∈ visited st ->
  get_deps max_depth (S fuel) package current_depth st = Some st.
Proof.
  intros Hguard. cbn [get_deps].
  destruct (bool_decide (current_depth > max_depth)
            || bool_decide (package ∈ visited st)) eqn:Hg; [done|].
  apply orb_false_elim in Hg as [?%bool_decide_eq_false ?%bool_decide_eq_false].
  tauto.
Qed.

Lemma get_deps_expand fuel package current_depth st :
  current_depth <= max_depth -> package ∉ visited st ->
  get_deps max_depth (S fuel) package current_depth st
  = for_each (fun dep => get_deps max_depth fuel dep (current_depth + 1))
      (set_iter (direct_dependencies package)) (expand package st).
Proof.
  intros Hd Hv. cbn [get_deps].
  rewrite (bool_decide_eq_false_2 (current_depth > max_depth)) by lia.
  by rewrite (bool_decide_eq_false_2 (package ∈ visited st)).
Qed.

(** Either line 26 returns, or lines 27-42 run. *)
Lemma get_deps_cases package current_depth st :
  (current_depth > max_depth \/ package ∈ visited st)
  \/ (current_depth <= max_depth /\ package ∉ visited st).
Proof.
  destruct (decide (current_depth > max_depth)); [by auto|].
  destruct (decide (package ∈ visited st)); [by auto|].
  right. split; [lia|done].
Qed.

(** The nesting of calls is bounded by the depths still to go. *)
Lemma get_deps_total fuel package current_depth st :
  (Z.to_nat (max_depth + 1 - current_depth) < fuel)%nat ->
  is_Some (get_deps max_depth fuel package current_depth st).
Proof.
  revert package current_depth st.
  induction fuel as [|fuel IH]; intros package d st Hfuel; [lia|].
  destruct (get_deps_cases package d st) as [Hret|[Hd Hv]].
  - rewrite get_deps_return by done. eauto.
  - rewrite get_deps_expand by done.
    apply for_each_total. intros dep s. apply IH. lia.
Qed.

(** More fuel never changes a result. *)
Lemma get_deps_fuel_mono fuel fuel' package current_depth st st' :
  (fuel <= fuel')%nat ->
  get_deps max_depth fuel package current_depth st = Some st' ->
  get_deps max_depth fuel' package current_depth st = Some st'.
Proof.
  revert fuel' package current_depth st st'.
  induction fuel as [|fuel IH]; intros fuel' package d st st' Hle; [done|].
  destruct fuel' as [|fuel']; [lia|].
  destruct (get_deps_cases package d st) as [Hret|[Hd Hv]].
  - by rewrite !get_deps_return.
  - rewrite !get_deps_expand by done.
    apply for_each_impl. intros dep s s'. apply IH. lia.
Qed.

(** A property of the state that every expansion preserves holds when
    [get_deps] returns. *)
Lemma get_deps_inv (P : State -> Prop) fuel package current_depth st st' :
  (forall p s, P s -> p ∉ visited s -> P (expand p s)) ->
  P st ->
  get_deps max_depth fuel package current_depth st = Some st' -> P st'.
Proof.
  intros Hstep. revert package current_depth st st'.
  induction fuel as [|fuel IH]; intros package d st st' HP; [done|].
  destruct (get_deps_cases package d st) as [Hret|[Hd Hv]].
  - rewrite get_deps_return by done. by intros [= <-].
  - rewrite get_deps_expand by done.
    apply for_each_inv; [|by apply Hstep].
    intros dep s s' Hs. by apply IH.
Qed.

Lemma consistent_initial : consistent initial_state.
Proof.
  split; simpl; [constructor|set_solver|done|by intros p ?%elem_of_nil].
Qed.

Lemma consistent_expand p st :
  consistent st -> p ∉ visited st -> consistent (expand p st).
Proof.
  intros [Hnd Hvis Hcalls Hval] Hp.
  assert (p ∉ dict_keys (dependencies st)) as Hfresh by by rewrite <- Hvis.
  unfold expand.
  split; cbn [dependencies visited calls]; rewrite dict_setitem_fresh by done;
    unfold dict_keys in *; rewrite ?fmap_app; cbn [fmap list_fmap fst].
  - apply NoDup_app. split_and!; [done|set_solver|apply NoDup_singleton].
  - intros q. rewrite elem_of_union, elem_of_app, Hvis. set_solver.
  - by rewrite Hcalls.
  - intros q [Hq|Hq%list_elem_of_singleton]%elem_of_app.
    + rewrite dict_get_app_l by done. by apply Hval.
    + subst q. rewrite dict_get_app_r by done. simpl.
      by rewrite decide_True.
Qed.

Lemma get_deps_consistent fuel package current_depth st st' :
  consistent st ->
  get_deps max_depth fuel package current_depth st = Some st' ->
  consistent st'.
Proof. apply get_deps_inv. intros p s. apply consistent_expand. Qed.

(** What is visited stays visited. *)
Lemma get_deps_visited_mono fuel package current_depth st st' :
  get_deps max_depth fuel package current_depth st = Some st' ->
  visited st ⊆ visited st'.
Proof.
  apply (get_deps_inv (fun s => visited st ⊆ visited s)); [|done].
  intros p s Hs _. unfold expand. simpl. set_solver.
Qed.

(** A call within the depth bound leaves its package visited. *)
Lemma get_deps_visits fuel package current_depth st st' :
  current_depth <= max_depth ->
  get_deps max_depth fuel package current_depth st = Some st' ->
  package ∈ visited st'.
Proof.
  intros Hd. destruct fuel as [|fuel]; [done|].
  destruct (get_deps_cases package current_depth st) as [[?|Hin]|[_ Hv]].
  - lia.
  - rewrite get_deps_return by auto. by intros [= <-].
  - rewrite get_deps_expand by done.
    apply (for_each_inv (fun s => package ∈ visited s)).
    + intros dep s s' Hs Hcall. by apply (get_deps_visited_mono _ _ _ _ _ Hcall).
    + unfold expand. simpl. set_solver.
Qed.

(** The loop of lines 41-42 reaches every element, whatever the earlier
    ones did. *)
Lemma for_each_get_deps_visits fuel current_depth l st st' :
  current_depth <= max_depth ->
  for_each (fun dep => get_deps max_depth fuel dep current_depth) l st
  = Some st' ->
  forall dep, dep ∈ l -> dep ∈ visited st'.
Proof.
  intros Hd. revert st. induction l as [|x l IH]; intros st Hloop dep Hin.
  - by apply elem_of_nil in Hin.
  - cbn [for_each] in Hloop.
    destruct (get_deps max_depth fuel x current_depth st) as [s1|] eqn:Hx;
      [|done].
    apply elem_of_cons in Hin as [->|Hin]; [|by eapply IH].
    apply get_deps_visits in Hx; [|done].
    revert Hloop. apply (for_each_inv (fun s => x ∈ visited s)); [|done].
    intros y s s' Hs Hcall. by apply (get_deps_visited_mono _ _ _ _ _ Hcall).
Qed.

End Traversal.

(** ** [fetch_dependencies] returns *)

Section Fetch.
Context `{Subprocess} `{SetOrder}.
Implicit Types (start repo : string) (max_depth : Z).

Lemma set_iter_singleton (x : string) : set_iter {[ x ]} = [x].
Proof.
  apply Permutation_singleton_r. rewrite set_iter_perm.
  by rewrite elements_singleton.
Qed.

Lemma set_iter_elem_of (s : gset string) x : x ∈ set_iter s <-> x ∈ s.
Proof. by rewrite set_iter_perm, elem_of_elements. Qed.

Lemma set_iter_nodup (s : gset string) : NoDup (set_iter s).
Proof. rewrite set_iter_perm. apply NoDup_elements. Qed.

Lemma set_iter_length (s : gset string) : length (set_iter s) = size s.
Proof. by rewrite set_iter_perm. Qed.

Lemma fetch_dependencies_run_total fuel start max_depth repo :
  (nesting_bound max_depth <= fuel)%nat ->
  fetch_dependencies_run fuel start max_depth repo
  = Some (fetch_dependencies_state start max_depth repo).
Proof.
  intros Hfuel. unfold fetch_dependencies_state, fetch_dependencies_run.
  destruct (get_deps_total max_depth (nesting_bound max_depth) start 1
              initial_state) as [st Hst]; [unfold nesting_bound; lia|].
  rewrite Hst. by apply get_deps_fuel_mono with (nesting_bound max_depth).
Qed.

(** Whatever bound lets the traversal return gives the final state. *)
Lemma fetch_dependencies_state_eq fuel start max_depth repo st :
  fetch_dependencies_run fuel start max_depth repo = Some st ->
  fetch_dependencies_state start max_depth repo = st.
Proof.
  intros Hrun.
  pose proof (fetch_dependencies_run_total
                (fuel `max` nesting_bound max_depth) start max_depth repo
                ltac:(lia)) as Hbig.
  unfold fetch_dependencies_run in *.
  apply get_deps_fuel_mono with (fuel' := (fuel `max` nesting_bound max_depth)%nat)
    in Hrun; [|lia].
  congruence.
Qed.

Lemma fetch_dependencies_state_consistent start max_depth repo :
  consistent (fetch_dependencies_state start max_depth repo).
Proof.
  pose proof (fetch_dependencies_run_total (nesting_bound max_depth)
                start max_depth repo ltac:(lia)) as Hrun.
  unfold fetch_dependencies_run in Hrun.
  eapply get_deps_consistent; [apply consistent_initial|exact Hrun].
Qed.

(** With a positive bound the first call expands the starting package,
    and what is visited stays visited. *)
Lemma start_visited start max_depth repo :
  1 <= max_depth ->
  start ∈ visited (fetch_dependencies_state start max_depth repo).
Proof.
  intros Hdepth.
  pose proof (fetch_dependencies_run_total (nesting_bound max_depth)
                start max_depth repo ltac:(lia)) as Hrun.
  unfold fetch_dependencies_run, nesting_bound in Hrun.
  rewrite get_deps_expand in Hrun by (done || set_solver).
  revert Hrun. apply (for_each_inv (fun st => start ∈ visited st)).
  - intros dep s s' Hs.
    apply (get_deps_inv _ (fun st => start ∈ visited st)); [|done].
    intros p s0 Hs0 _. unfold expand. simpl. set_solver.
  - unfold expand. simpl. set_solver.
Qed.

(** At depth one nothing but the starting package is expanded. *)
Lemma fetch_dependencies_state_depth_one start repo :
  fetch_dependencies_state start 1 repo = expand start initial_state.
Proof.
  apply (fetch_dependencies_state_eq 2). unfold fetch_dependencies_run.
  rewrite get_deps_expand by (done || set_solver).
  apply for_each_skip. intros dep. apply get_deps_return. left. lia.
Qed.

(** Without a positive bound nothing is expanded at all. *)
Lemma fetch_dependencies_state_depth_nonpositive start max_depth repo :
  max_depth <= 0 ->
  fetch_dependencies_state start max_depth repo = initial_state.
Proof.
  intros Hdepth. apply (fetch_dependencies_state_eq 1).
  unfold fetch_dependencies_run. apply get_deps_return. left. lia.
Qed.

(** With a depth bound of two or more every direct dependency of the
    starting package is visited. *)
Lemma direct_dependencies_visited start max_depth repo dep :
  2 <= max_depth ->
  dep ∈ direct_dependencies start ->
  dep ∈ visited (fetch_dependencies_state start max_depth repo).
Proof.
  intros Hdepth Hdep.
  pose proof (fetch_dependencies_run_total (nesting_bound max_depth)
                start max_depth repo ltac:(lia)) as Hrun.
  unfold fetch_dependencies_run, nesting_bound in Hrun.
  rewrite get_deps_expand in Hrun by (lia || set_solver).
  eapply for_each_get_deps_visits in Hrun; [exact Hrun|lia|].
  by apply set_iter_elem_of.
Qed.

End Fetch.

(** ** The claims about the traversal *)

(** Membership in a list built from appends, conses and maps, reduced to
    the equations with its elements. *)
Ltac split_elem_of H :=
  repeat first
    [ apply elem_of_app in H as [H|H]
    | apply elem_of_cons in H as [H|H]
    | apply elem_of_nil in H; destruct H
    | apply list_elem_of_fmap in H as (? & H & _) ].

(** C2: for every depth bound of at least one and every metadata source,
    a cyclic one included, the traversal returns: every bound on the
    nesting of calls from [nesting_bound max_depth] on gives the same final
    state.  In the resulting graph every package is a key at most once,
    and every package was queried, that is expanded, at most once. *)
Theorem resolve_terminates_unique_keys `{Subprocess} `{SetOrder}
  (start : string) (max_depth : Z) (repo : string) :
  1 <= max_depth ->
  (forall fuel, (nesting_bound max_depth <= fuel)%nat ->
     fetch_dependencies_run fuel start max_depth repo
     = Some (fetch_dependencies_state start max_depth repo))
  /\ NoDup (dict_keys (fetch_dependencies start max_depth repo))
  /\ NoDup (calls (fetch_dependencies_state start max_depth repo)).
Proof.
  intros _.
  destruct (fetch_dependencies_state_consistent start max_depth repo)
    as [Hnd _ Hcalls _].
  split_and!.
  - intros fuel Hfuel. by apply fetch_dependencies_run_total.
  - exact Hnd.
  - rewrite Hcalls. apply NoDup_fmap_2; [|exact Hnd].
    intros p q. unfold apt_cache_depends. congruence.
Qed.

(** C3, as amended: with depth bound one the graph has exactly one key,
    the starting package, mapped to its direct dependencies; only the
    starting package is queried, so that no dependency other than the
    starting package itself is a key. *)
Theorem depth_one_single_key `{Subprocess} `{SetOrder}
  (start repo : string) :
  fetch_dependencies start 1 repo = [(start, direct_dependencies start)]
  /\ calls (fetch_dependencies_state start 1 repo) = [apt_cache_depends start]
  /\ forall dep, dep ∈ direct_dependencies start -> dep <> start ->
       dep ∉ dict_keys (fetch_dependencies start 1 repo).
Proof.
  unfold fetch_dependencies. rewrite fetch_dependencies_state_depth_one.
  split_and!; [done|done|].
  intros dep _ Hne. simpl. by intros ->%list_elem_of_singleton.
Qed.

(** C7: with a depth bound of zero or less the graph is empty, whatever
    the starting package and the metadata source; nothing is visited and
    no query is made. *)
Theorem nonpositive_depth_empty_graph `{Subprocess} `{SetOrder}
  (start : string) (max_depth : Z) (repo : string) :
  max_depth <= 0 ->
  fetch_dependencies start max_depth repo = []
  /\ fetch_dependencies_state start max_depth repo = initial_state.
Proof.
  intros Hdepth. unfold fetch_dependencies.
  by rewrite fetch_dependencies_state_depth_nonpositive.
Qed.

(** C8: every package that was visited during the traversal is a key of
    the resulting graph, mapped to the dependency set its query gave; when
    that set is empty the package is mapped to the empty set, not left
    out. *)
Theorem visited_package_is_key `{Subprocess} `{SetOrder}
  (start : string) (max_depth : Z) (repo : string) (p : string) :
  p ∈ visited (fetch_dependencies_state start max_depth repo) ->
  p ∈ dict_keys (fetch_dependencies start max_depth repo)
  /\ dict_get (fetch_dependencies start max_depth repo) p
     = Some (direct_dependencies p)
  /\ (direct_dependencies p = ∅ ->
      dict_get (fetch_dependencies start max_depth repo) p = Some ∅).
Proof.
  intros Hp.
  destruct (fetch_dependencies_state_consistent start max_depth repo)
    as [_ Hvis _ Hval].
  apply Hvis in Hp. unfold fetch_dependencies.
  split_and!; [done|by apply Hval|].
  intros <-. by apply Hval.
Qed.

(** C9: the repository URL has no effect: two calls that differ only in
    it give the same graph, and two runs of the program that differ only
    in it do the same things and end with the same status. *)
Theorem repo_url_ignored `{Subprocess} `{SetOrder} `{PathLib}
  (start : string) (max_depth : Z) (repo1 repo2 : string)
  (plantuml out : string) :
  fetch_dependencies start max_depth repo1
  = fetch_dependencies start max_depth repo2
  /\ main (mkArgs plantuml start out max_depth repo1)
     = main (mkArgs plantuml start out max_depth repo2).
Proof. split; reflexivity. Qed.

(** C10: with a depth bound of at least one the starting package is a
    key of the graph, whatever the metadata source answers, so the graph
    is not empty; [main] then never prints its message about missing
    dependencies, it writes the graph text, and it ends with status 1 only
    when the renderer failed. *)
Theorem start_always_key `{Subprocess} `{SetOrder} `{PathLib} (args : Args) :
  1 <= depth args ->
  package args
    ∈ dict_keys (fetch_dependencies (package args) (depth args) (repo args))
  /\ dict_is_empty
       (fetch_dependencies (package args) (depth args) (repo args)) = false
  /\ (PrintErr (no_dependencies_message args) ∉ (main args).1)
  /\ (WriteFile (with_suffix (output args) ".puml")
        (build_puml_graph
           (fetch_dependencies (package args) (depth args) (repo args)))
      ∈ (main args).1)
  /\ ((main args).2 = 1 ->
      returncode
        (subprocess_run
           (plantuml_command (with_suffix (output args) ".puml")
              (output args) (plantuml_path args))) <> 0).
Proof.
  intros Hdepth.
  pose proof (start_visited (package args) (depth args) (repo args) Hdepth)
    as Hstart.
  destruct (fetch_dependencies_state_consistent
              (package args) (depth args) (repo args)) as [_ Hvis _ _].
  apply Hvis in Hstart.
  assert (dict_is_empty
            (fetch_dependencies (package args) (depth args) (repo args))
          = false) as Hne.
  { unfold fetch_dependencies.
    destruct (dependencies (fetch_dependencies_state _ _ _)); [|done].
    by apply elem_of_nil in Hstart. }
  split; [done|]. split; [done|].
  unfold main. unfold fetch_dependencies in Hne. rewrite Hne.
  unfold fetch_dependencies, render_graph, save_puml_file.
  case_bool_decide as Hrc; cbn [fst snd]; split_and!.
  - intros Hin. split_elem_of Hin; discriminate Hin.
  - set_solver.
  - done.
  - intros Hin. split_elem_of Hin; discriminate Hin.
  - set_solver.
  - done.
Qed.

(** C4: when the metadata source says that A depends on B alone and B on A
    alone, the traversal from A with depth bound 5 gives the graph with
    the two keys A and B, in this order, each mapped to the other; both
    are visited and each is queried once. *)
Theorem cycle_two_keys `{Subprocess} `{SetOrder} (repo : string) :
  direct_dependencies "A" = {[ "B" ]} ->
  direct_dependencies "B" = {[ "A" ]} ->
  fetch_dependencies "A" 5 repo = [("A", {[ "B" ]}); ("B", {[ "A" ]})]
  /\ dict_keys (fetch_dependencies "A" 5 repo) = ["A"; "B"]
  /\ calls (fetch_dependencies_state "A" 5 repo)
     = [apt_cache_depends "A"; apt_cache_depends "B"].
Proof.
  intros HA HB. unfold fetch_dependencies.
  rewrite (fetch_dependencies_state_eq 3 "A" 5 repo
             (expand "B" (expand "A" initial_state))).
  - unfold expand. cbn [dependencies calls initial_state dict_setitem].
    rewrite HA, HB. rewrite decide_False by done. done.
  - unfold fetch_dependencies_run.
    rewrite get_deps_expand by (lia || set_solver).
    rewrite HA, set_iter_singleton. cbn [for_each].
    rewrite get_deps_expand; [|lia|].
    + rewrite HB, set_iter_singleton. cbn [for_each].
      rewrite get_deps_return; [done|].
      right. unfold expand. cbn [visited]. set_solver.
    + unfold expand. cbn [visited initial_state].
      rewrite elem_of_union, elem_of_singleton. intros [?|?%elem_of_empty];
        [discriminate|done].
Qed.

(** ** [build_puml_graph] *)

Lemma string_app_assoc (a b c : string) : (a +:+ b) +:+ c = a +:+ (b +:+ c).
Proof.
  induction a as [|x a IH]; [done|].
  change (String x ((a +:+ b) +:+ c) = String x (a +:+ (b +:+ c))).
  by f_equal.
Qed.

Lemma string_app_nil_r (a : string) : a +:+ EmptyString = a.
Proof.
  induction a as [|x a IH]; [done|].
  change (String x (a +:+ EmptyString) = String x a). by f_equal.
Qed.

Lemma join_app (l1 l2 : list string) : join (l1 ++ l2) = join l1 +:+ join l2.
Proof.
  induction l1 as [|x l1 IH]; [done|].
  change (x +:+ join (l1 ++ l2) = (x +:+ join l1) +:+ join l2).
  by rewrite IH, string_app_assoc.
Qed.

(** Appending in a loop is appending the joined pieces. *)
Lemma foldl_append {A} (f : A -> string) (l : list A) (graph : string) :
  foldl (fun graph x => graph +:+ f x) graph l = graph +:+ join (f <$> l).
Proof.
  revert graph. induction l as [|x l IH]; intros graph.
  - simpl. by rewrite string_app_nil_r.
  - cbn [foldl]. rewrite IH.
    change (join (f <$> x :: l)) with (f x +:+ join (f <$> l)).
    by rewrite string_app_assoc.
Qed.

Lemma dict_get_elem_of (d : Dict) p deps :
  NoDup (dict_keys d) -> (p, deps) ∈ d <-> dict_get d p = Some deps.
Proof.
  unfold dict_keys. induction d as [|[k v] d IH]; intros Hnd.
  - split; [by intros ?%elem_of_nil|done].
  - apply NoDup_cons in Hnd as [Hk Hnd]. simpl in Hk |- *.
    rewrite elem_of_cons. destruct (decide (p = k)) as [->|Hne].
    + split.
      * intros [[= ->]|Hin]; [done|].
        destruct Hk. apply list_elem_of_fmap. by exists (k, deps).
      * intros [= ->]. by left.
    + rewrite <- IH by done. split; [|by right].
      intros [[= -> ->]|Hin]; done.
Qed.

Section Serializer.
Context `{SetOrder}.

Lemma edges_cons p deps (d : Dict) :
  edges ((p, deps) :: d)
  = ((fun dep => (p, dep)) <$> set_iter deps) ++ edges d.
Proof. reflexivity. Qed.

Lemma build_puml_graph_lines (d : Dict) :
  build_puml_graph d
  = startuml +:+ join (uncurry edge_line <$> edges d) +:+ enduml.
Proof.
  unfold build_puml_graph. rewrite <- string_app_assoc. f_equal.
  generalize startuml as graph.
  induction d as [|[p deps] d IH]; intros graph.
  - simpl. by rewrite string_app_nil_r.
  - cbn [foldl]. rewrite IH, edges_cons, fmap_app, join_app.
    rewrite foldl_append, string_app_assoc. do 2 f_equal.
    by rewrite <- list_fmap_compose.
Qed.

Lemma elem_of_edges (d : Dict) p dep :
  (p, dep) ∈ edges d <-> exists deps, (p, deps) ∈ d /\ dep ∈ deps.
Proof.
  unfold edges. rewrite list_elem_of_bind. split.
  - intros [[q deps] [Hin Hq]].
    apply list_elem_of_fmap in Hin as [x [[= -> ->] Hx]].
    exists deps. by rewrite <- set_iter_elem_of.
  - intros [deps [Hin Hdep]]. exists (p, deps). split; [|done].
    apply list_elem_of_fmap. exists dep. by rewrite set_iter_elem_of.
Qed.

Lemma edges_length (d : Dict) :
  length (edges d) = sum_list ((fun entry => size entry.2) <$> d).
Proof.
  induction d as [|[p deps] d IH]; [done|].
  rewrite edges_cons, length_app, length_fmap, set_iter_length, IH. done.
Qed.

Lemma edges_nodup (d : Dict) : NoDup (dict_keys d) -> NoDup (edges d).
Proof.
  unfold dict_keys. induction d as [|[p deps] d IH]; intros Hnd.
  - constructor.
  - apply NoDup_cons in Hnd as [Hp Hnd]. rewrite edges_cons.
    apply NoDup_app. split_and!.
    + apply NoDup_fmap_2; [|apply set_iter_nodup]. intros x y. congruence.
    + intros [q dep] [x [[= -> ->] _]]%list_elem_of_fmap
        [deps' [Hin _]]%elem_of_edges.
      destruct Hp. apply list_elem_of_fmap. by exists (p, deps').
    + by apply IH.
Qed.

End Serializer.

(** ** Queries without an answer *)

Lemma for_each_ext {A S} (body1 body2 : A -> S -> option S) l st :
  (forall x s, body1 x s = body2 x s) ->
  for_each body1 l st = for_each body2 l st.
Proof.
  intros Hext. revert st. induction l as [|x l IH]; intros st; simpl; [done|].
  rewrite Hext. destruct (body2 x st); [apply IH|done].
Qed.

(** The traversal sees the metadata source through [direct_dependencies]
    alone: return codes and error output play no part. *)
Lemma get_deps_ext (H1 H2 : Subprocess) `{SetOrder} max_depth fuel package
  current_depth st :
  (forall q, @direct_dependencies H1 q = @direct_dependencies H2 q) ->
  @get_deps H1 _ max_depth fuel package current_depth st
  = @get_deps H2 _ max_depth fuel package current_depth st.
Proof.
  intros Hsame. revert package current_depth st.
  induction fuel as [|fuel IH]; intros package d st; [done|].
  destruct (get_deps_cases max_depth package d st) as [Hret|[Hd Hv]].
  - by rewrite !get_deps_return.
  - rewrite !get_deps_expand by done. unfold expand. rewrite Hsame.
    apply for_each_ext. intros dep s. apply IH.
Qed.

Lemma direct_dependencies_with_answer (base : Subprocess) p answer q :
  @direct_dependencies (with_answer base p answer) q
  = if decide (q = p) then parse_depends (stdout answer)
    else @direct_dependencies base q.
Proof.
  unfold direct_dependencies, with_answer. cbn [subprocess_run].
  destruct (decide (q = p)) as [->|Hne].
  - by rewrite decide_True.
  - rewrite decide_False; [done|]. unfold apt_cache_depends. congruence.
Qed.

(** The error handling of lines 29-42: a query for a package other than
    the starting one that gives no dependency information, as the one for
    an unknown package does, does not stop the traversal, whatever its
    return code and error output: the traversal returns a graph; the
    package, if it was reached, is mapped to the empty set; every visited
    package is mapped to what its own query gave; with a depth bound of
    two or more all direct dependencies of the starting package are
    visited, those that come after the failing one included; and the
    graph is the one obtained when the query for that package is answered
    properly with no dependency at all. *)
Theorem failed_query_is_empty_set `{Subprocess} `{SetOrder}
  (start : string) (max_depth : Z) (repo : string)
  (p : string) (answer : CompletedProcess) :
  p <> start ->
  no_dependency_information (stdout (subprocess_run (apt_cache_depends p))) ->
  no_dependency_information (stdout answer) ->
  (forall fuel, (nesting_bound max_depth <= fuel)%nat ->
     fetch_dependencies_run fuel start max_depth repo
     = Some (fetch_dependencies_state start max_depth repo))
  /\ (p ∈ visited (fetch_dependencies_state start max_depth repo) ->
      dict_get (fetch_dependencies start max_depth repo) p = Some ∅)
  /\ (forall q, q ∈ visited (fetch_dependencies_state start max_depth repo) ->
        dict_get (fetch_dependencies start max_depth repo) q
        = Some (direct_dependencies q))
  /\ (2 <= max_depth ->
      forall dep, dep ∈ direct_dependencies start ->
        dep ∈ visited (fetch_dependencies_state start max_depth repo))
  /\ fetch_dependencies start max_depth repo
     = @fetch_dependencies (with_answer _ p answer) _ start max_depth repo.
Proof.
  intros _ Hfail Hanswer.
  destruct (fetch_dependencies_state_consistent start max_depth repo)
    as [_ Hvis _ Hval].
  assert (direct_dependencies p = ∅) as Hp
    by by apply parse_depends_no_information.
  split_and!.
  - intros fuel Hfuel. by apply fetch_dependencies_run_total.
  - intros Hin. rewrite <- Hp. apply Hval. by apply Hvis.
  - intros q Hin. apply Hval. by apply Hvis.
  - intros Hdepth dep Hdep. by apply direct_dependencies_visited.
  - unfold fetch_dependencies, fetch_dependencies_state, fetch_dependencies_run.
    rewrite (get_deps_ext _ (with_answer _ p answer)); [done|].
    intros q. rewrite direct_dependencies_with_answer.
    destruct (decide (q = p)) as [->|]; [|done].
    by rewrite Hp, parse_depends_no_information.
Qed.

(** A starting package whose query gives no dependency information is
    still recorded: with a positive depth bound the graph is the single
    entry that maps it to the empty set. *)
Lemma silent_start_single_entry `{Subprocess} `{SetOrder}
  (start : string) (max_depth : Z) (repo : string) :
  1 <= max_depth ->
  no_dependency_information
    (stdout (subprocess_run (apt_cache_depends start))) ->
  fetch_dependencies start max_depth repo = [(start, ∅)].
Proof.
  intros Hdepth Hsilent.
  assert (direct_dependencies start = ∅) as Hnone
    by by apply parse_depends_no_information.
  unfold fetch_dependencies.
  rewrite (fetch_dependencies_state_eq 1 start max_depth repo
             (expand start initial_state)).
  - unfold expand. simpl. by rewrite Hnone.
  - unfold fetch_dependencies_run.
    rewrite get_deps_expand by (lia || set_solver).
    assert (set_iter (direct_dependencies start) = []) as ->; [|done].
    apply Permutation_nil_r. by rewrite set_iter_perm, Hnone, elements_empty.
Qed.

(** ** The claims on concrete package indexes *)

(** Decidable facts about closed terms, by evaluation. *)
Ltac by_evaluation :=
  match goal with |- ?P => apply (bool_decide_unpack P) end;
  vm_compute; exact I.

(** C1: the package named on the command line is unknown to the index, so
    that its query gives no dependency information.  The graph is not
    empty, it has the package as its one key, mapped to the empty set;
    [main] does not print its message about missing dependencies, it
    writes a graph without edges, runs the renderer, reports success and
    ends with status 0. *)
Theorem unknown_start_package_not_reported :
  no_dependency_information
    (stdout (@subprocess_run empty_source (apt_cache_depends "nosuch")))
  /\ @fetch_dependencies empty_source elements_order "nosuch" 3 ubuntu_archive
     = [("nosuch", ∅)]
  /\ @main empty_source elements_order flat_paths unknown_package_args
     = ([Run ["apt-cache"; "depends"; "nosuch"];
         WriteFile "graph.puml" (startuml +:+ enduml);
         Run ["plantuml"; "graph.puml"; "-tpng"; "-o"; "."];
         PrintOut "Graph successfully saved to graph"], 0).
Proof.
  split_and!.
  - constructor.
  - vm_compute. reflexivity.
  - vm_compute. reflexivity.
Qed.

(** C3 as stated fails for a package that lists itself among its
    dependencies: with depth bound one, A is a dependency of the starting
    package A and is a key of the graph. *)
Lemma depth_one_self_dependency_is_key :
  ~ (dict_keys (@fetch_dependencies selfish_source elements_order "A" 1
                  EmptyString) = ["A"]
     /\ dict_get (@fetch_dependencies selfish_source elements_order "A" 1
                    EmptyString) "A"
        = Some (@direct_dependencies selfish_source "A")
     /\ forall dep, dep ∈ @direct_dependencies selfish_source "A" ->
          dep ∉ dict_keys (@fetch_dependencies selfish_source elements_order
                             "A" 1 EmptyString)).
Proof.
  intros (_ & _ & Hnone). apply (Hnone "A"); by_evaluation.
Qed.

(** C6: the index does not know F, a dependency of the starting package
    A.  The traversal does not stop there: it maps F to the empty set and
    goes on.  But the graph does not cover everything within the depth
    bound: with the dependencies of A taken in the order C, F, B, the
    package B is first met at level 3, below C, where its dependencies
    are beyond the bound, and it is not expanded again when met at level
    2.  So D, at level 3 below B, is not a key with depth bound 3, and
    its dependency E is nowhere in the graph.  With the dependencies
    taken in the opposite order D is a key. *)
Lemma failed_query_shortcut_not_covered :
  "F" <> "A"
  /\ @set_iter elements_order (@direct_dependencies shortcut_source "A")
     = ["C"; "F"; "B"]
  /\ no_dependency_information
       (stdout (@subprocess_run shortcut_source (apt_cache_depends "F")))
  /\ dict_get (@fetch_dependencies shortcut_source elements_order "A" 3
                 EmptyString) "F" = Some ∅
  /\ dict_keys (@fetch_dependencies shortcut_source elements_order "A" 3
                  EmptyString) = ["A"; "C"; "B"; "F"]
  /\ "E" ∈ @direct_dependencies shortcut_source "D"
  /\ ("E" ∉ (@edges elements_order
               (@fetch_dependencies shortcut_source elements_order "A" 3
                  EmptyString)).*2)
  /\ dict_keys (@fetch_dependencies shortcut_source reversed_order "A" 3
                  EmptyString) = ["A"; "B"; "D"; "F"; "C"]
  /\ ~ (forall level q,
          @at_level shortcut_source "A" level q -> level <= 3 ->
          q ∈ dict_keys (@fetch_dependencies shortcut_source elements_order
                           "A" 3 EmptyString)).
Proof.
  split_and!.
  - discriminate.
  - vm_compute. reflexivity.
  - constructor.
  - vm_compute. reflexivity.
  - vm_compute. reflexivity.
  - by_evaluation.
  - by_evaluation.
  - vm_compute. reflexivity.
  - intros Hall.
    assert (@at_level shortcut_source "A" 3 "D") as HD.
    { apply (at_level_dep "A" 2 "B"); [|by_evaluation].
      apply (at_level_dep "A" 1 "A"); [|by_evaluation].
      apply at_level_start. }
    apply Hall in HD; [|lia]. revert HD. by_evaluation.
Qed.

(** ** The theorems at concrete inputs *)

Lemma resolve_terminates_unique_keys_cycle :
  1 <= 5
  /\ (forall fuel, (nesting_bound 5 <= fuel)%nat ->
        @fetch_dependencies_run cyclic_source elements_order fuel "A" 5
          EmptyString
        = Some (@fetch_dependencies_state cyclic_source elements_order "A" 5
                  EmptyString))
  /\ NoDup (dict_keys (@fetch_dependencies cyclic_source elements_order
                         "A" 5 EmptyString))
  /\ NoDup (calls (@fetch_dependencies_state cyclic_source elements_order
                     "A" 5 EmptyString)).
Proof.
  split; [lia|].
  apply (@resolve_terminates_unique_keys cyclic_source elements_order).
  lia.
Defined.

Lemma cycle_two_keys_table :
  @direct_dependencies cyclic_source "A" = {[ "B" ]}
  /\ @direct_dependencies cyclic_source "B" = {[ "A" ]}
  /\ @fetch_dependencies cyclic_source elements_order "A" 5 EmptyString
     = [("A", {[ "B" ]}); ("B", {[ "A" ]})].
Proof.
  split; [vm_compute; reflexivity|]. split; [vm_compute; reflexivity|].
  apply (@cycle_two_keys cyclic_source elements_order EmptyString);
    vm_compute; reflexivity.
Defined.

Lemma failed_query_is_empty_set_orphan :
  "libfoo" <> "app"
  /\ no_dependency_information
       (stdout (@subprocess_run orphan_source (apt_cache_depends "libfoo")))
  /\ no_dependency_information (stdout (apt_known "libfoo" []))
  /\ dict_get (@fetch_dependencies orphan_source elements_order "app" 2
                 EmptyString) "libfoo" = Some ∅
  /\ "libbar" ∈ visited (@fetch_dependencies_state orphan_source
                           elements_order "app" 2 EmptyString)
  /\ @fetch_dependencies orphan_source elements_order "app" 2 EmptyString
     = @fetch_dependencies
         (with_answer orphan_source "libfoo" (apt_known "libfoo" []))
         elements_order "app" 2 EmptyString.
Proof.
  assert ("libfoo" <> "app") as Hne by discriminate.
  assert (no_dependency_information
            (stdout (@subprocess_run orphan_source
                       (apt_cache_depends "libfoo")))) as Hfail
    by constructor.
  assert (no_dependency_information (stdout (apt_known "libfoo" [])))
    as Hanswer by (repeat constructor).
  split; [exact Hne|]. split; [exact Hfail|]. split; [exact Hanswer|].
  destruct (@failed_query_is_empty_set orphan_source elements_order
              "app" 2 EmptyString "libfoo" (apt_known "libfoo" [])
              Hne Hfail Hanswer) as (_ & Hempty & _ & Hnext & Hsame).
  split; [|split; [|exact Hsame]].
  - apply Hempty. by_evaluation.
  - apply Hnext; [lia|by_evaluation].
Defined.

Lemma nonpositive_depth_empty_graph_zero :
  0 <= 0
  /\ @fetch_dependencies app_source elements_order "app" 0 EmptyString = []
  /\ @fetch_dependencies_state app_source elements_order "app" 0 EmptyString
     = initial_state.
Proof.
  split; [lia|].
  apply (@nonpositive_depth_empty_graph app_source elements_order). lia.
Defined.

Lemma visited_package_is_key_libfoo :
  "libfoo" ∈ visited (@fetch_dependencies_state app_source elements_order
                        "app" 2 EmptyString)
  /\ dict_get (@fetch_dependencies app_source elements_order "app" 2
                 EmptyString) "libfoo" = Some ∅.
Proof.
  assert ("libfoo" ∈ visited (@fetch_dependencies_state app_source
                                elements_order "app" 2 EmptyString))
    as Hvisited by by_evaluation.
  split; [exact Hvisited|].
  destruct (@visited_package_is_key app_source elements_order "app" 2
              EmptyString "libfoo" Hvisited) as (_ & _ & Hempty).
  apply Hempty. vm_compute. reflexivity.
Defined.

Lemma start_always_key_unknown_package :
  1 <= depth unknown_package_args
  /\ "nosuch" ∈ dict_keys (@fetch_dependencies empty_source elements_order
                             "nosuch" 3 ubuntu_archive)
  /\ PrintErr (no_dependencies_message unknown_package_args)
     ∉ (@main empty_source elements_order flat_paths unknown_package_args).1.
Proof.
  assert (1 <= depth unknown_package_args) as Hdepth by (simpl; lia).
  split; [exact Hdepth|].
  destruct (@start_always_key empty_source elements_order flat_paths
              unknown_package_args Hdepth) as (Hkey & _ & Hquiet & _).
  split; [exact Hkey|exact Hquiet].
Defined.

(** * Further properties of the code *)

(** ** Lines 33-38: what the parser records *)

Lemma rev_app_rev_app (t cur u : string) :
  String.rev_app (String.rev_app t cur) u = String.rev_app cur (t +:+ u).
Proof.
  revert cur u. induction t as [|a t IH]; intros cur u; [done|].
  cbn [String.rev_app]. rewrite IH. done.
Qed.

Lemma rev_rev_app (t : string) :
  String.rev (String.rev_app t EmptyString) = t.
Proof.
  unfold String.rev. rewrite rev_app_rev_app. apply string_app_nil_r.
Qed.

Lemma all_chars_app P (s t : string) :
  all_chars P (s +:+ t) = all_chars P s && all_chars P t.
Proof.
  induction s as [|c s IH]; [done|].
  change (P c && all_chars P (s +:+ t) = P c && all_chars P s && all_chars P t).
  by rewrite IH, andb_assoc.
Qed.

Lemma all_chars_rev_app P (s t : string) :
  all_chars P (String.rev_app s t) = all_chars P s && all_chars P t.
Proof.
  revert t. induction s as [|c s IH]; intros t; [done|].
  cbn [String.rev_app all_chars]. rewrite IH. cbn [all_chars].
  destruct (P c), (all_chars P s), (all_chars P t); done.
Qed.

Lemma all_chars_rev P (s : string) : all_chars P (String.rev s) = all_chars P s.
Proof. unfold String.rev. rewrite all_chars_rev_app. simpl. apply andb_true_r. Qed.

Lemma all_chars_lstrip P (s : string) :
  all_chars P s = true -> all_chars P (PyStr.lstrip s) = true.
Proof.
  induction s as [|c s IH]; [done|]. intros Hs. cbn [PyStr.lstrip].
  destruct (PyStr.is_space c); [|done].
  apply IH. by apply andb_true_iff in Hs as [_ ?].
Qed.

Lemma all_chars_rstrip P (s : string) :
  all_chars P s = true -> all_chars P (PyStr.rstrip s) = true.
Proof.
  induction s as [|c s IH]; [done|].
  intros [Hc Hs]%andb_true_iff. cbn [PyStr.rstrip].
  specialize (IH Hs). destruct (PyStr.rstrip s) as [|c' r].
  - destruct (PyStr.is_space c); [done|]. simpl. by rewrite Hc.
  - cbn [all_chars] in *. by rewrite Hc.
Qed.

Lemma all_chars_strip P (s : string) :
  all_chars P s = true -> all_chars P (PyStr.strip s) = true.
Proof. intros Hs. by apply all_chars_rstrip, all_chars_lstrip. Qed.

Lemma all_chars_split_go P sep skip cur s :
  all_chars P cur = true -> all_chars P s = true ->
  Forall (fun field => all_chars P field = true)
         (PyStr.split_go sep skip cur s).
Proof.
  revert skip cur. induction s as [|c s IH]; intros skip cur Hcur Hs.
  - repeat constructor. by rewrite all_chars_rev.
  - apply andb_true_iff in Hs as [Hc Hs]. cbn [PyStr.split_go].
    destruct skip; [|by apply IH].
    destruct (String.prefix sep (String c s)).
    + constructor; [by rewrite all_chars_rev|by apply IH].
    + apply IH; [|done]. simpl. by rewrite Hc.
Qed.

(** The lines of [splitlines] have no line break left in them. *)
Lemma splitlines_go_no_linebreak (n : nat) cur s :
  (String.length s <= n)%nat ->
  no_linebreak cur = true ->
  Forall (fun line => no_linebreak line = true) (PyStr.splitlines_go cur s).
Proof.
  revert cur s. induction n as [|n IH]; intros cur s Hlen Hcur.
  - destruct s; [|simpl in Hlen; lia]. simpl.
    destruct cur; repeat constructor.
    unfold no_linebreak. by rewrite all_chars_rev.
  - destruct s as [|c s].
    { simpl. destruct cur; repeat constructor.
      unfold no_linebreak. by rewrite all_chars_rev. }
    simpl in Hlen. cbn [PyStr.splitlines_go].
    destruct (PyStr.is_linebreak c) eqn:Hc.
    + constructor; [unfold no_linebreak; by rewrite all_chars_rev|].
      destruct s as [|c' s']; [apply IH; [simpl; lia|done]|].
      destruct (PyStr.is_CR c && PyStr.is_LF c');
        (apply IH; [simpl in *; lia|done]).
    + apply IH; [lia|]. unfold no_linebreak in *. simpl. by rewrite Hc.
Qed.

Lemma rstrip_head c t :
  PyStr.is_space c = false ->
  PyStr.rstrip (String c t) = String c (PyStr.rstrip t).
Proof.
  intros Hc. cbn [PyStr.rstrip]. rewrite Hc. by destruct (PyStr.rstrip t).
Qed.

Lemma rstrip_idemp s : PyStr.rstrip (PyStr.rstrip s) = PyStr.rstrip s.
Proof.
  induction s as [|c s IH]; [done|]. cbn [PyStr.rstrip].
  destruct (PyStr.rstrip s) as [|c' r] eqn:Hr.
  - destruct (PyStr.is_space c) eqn:Hc; [done|]. simpl. by rewrite Hc.
  - cbn [PyStr.rstrip]. cbn [PyStr.rstrip] in IH.
    destruct (PyStr.rstrip r) as [|c'' r'].
    + destruct (PyStr.is_space c'); [done|]. by rewrite IH.
    + by rewrite IH.
Qed.

Lemma lstrip_head s :
  PyStr.lstrip s = EmptyString
  \/ exists c t, PyStr.lstrip s = String c t /\ PyStr.is_space c = false.
Proof.
  induction s as [|c s IH]; [by left|]. cbn [PyStr.lstrip].
  destruct (PyStr.is_space c) eqn:Hc; [done|]. right. by exists c, s.
Qed.

Lemma strip_idemp s : PyStr.strip (PyStr.strip s) = PyStr.strip s.
Proof.
  unfold PyStr.strip.
  destruct (lstrip_head s) as [->|(c & t & -> & Hc)]; [done|].
  rewrite rstrip_head by done. cbn [PyStr.lstrip]. rewrite Hc.
  rewrite <- (rstrip_head c t Hc). apply rstrip_idemp.
Qed.

Lemma all_chars_impl (P Q : ascii -> bool) s :
  (forall c, P c = true -> Q c = true) ->
  all_chars P s = true -> all_chars Q s = true.
Proof.
  intros HPQ. induction s as [|c s IH]; [done|].
  intros [Hc Hs]%andb_true_iff. simpl. by rewrite (HPQ c Hc), IH.
Qed.

Lemma lstrip_all_space ws t :
  all_space ws = true -> PyStr.lstrip (ws +:+ t) = PyStr.lstrip t.
Proof.
  induction ws as [|c ws IH]; [done|].
  intros [Hc Hws]%andb_true_iff.
  change (String c ws +:+ t) with (String c (ws +:+ t)).
  cbn [PyStr.lstrip]. rewrite Hc. by apply IH.
Qed.

Lemma split_go_skip sep s1 cur u :
  PyStr.split_go sep (String.length s1) cur (s1 +:+ u)
  = PyStr.split_go sep O cur u.
Proof.
  induction s1 as [|a s1 IH]; [by destruct u|].
  change (String a s1 +:+ u) with (String a (s1 +:+ u)).
  cbn [String.length PyStr.split_go]. apply IH.
Qed.

(** Where the first character of the separator does not occur, nothing
    is split. *)
Lemma split_go_pass a sep' t cur u :
  all_chars (fun c => negb (Ascii.eqb c a)) t = true ->
  PyStr.split_go (String a sep') O cur (t +:+ u)
  = PyStr.split_go (String a sep') O (String.rev_app t cur) u.
Proof.
  revert cur. induction t as [|c t IH]; intros cur Ht; [done|].
  apply andb_true_iff in Ht as [Hc Ht].
  change (String c t +:+ u) with (String c (t +:+ u)).
  cbn [PyStr.split_go String.prefix].
  destruct (ascii_dec a c) as [->|_].
  - by rewrite Ascii.eqb_refl in Hc.
  - cbn [String.rev_app]. by apply IH.
Qed.

Lemma prefix_append p t : String.prefix p (p +:+ t) = true.
Proof.
  induction p as [|b p IH]; [by destruct t|].
  change (String b p +:+ t) with (String b (p +:+ t)).
  cbn [String.prefix]. by destruct (ascii_dec b b).
Qed.

Lemma split_two_fields a sep' ws rest :
  all_chars (fun c => negb (Ascii.eqb c a)) ws = true ->
  all_chars (fun c => negb (Ascii.eqb c a)) rest = true ->
  PyStr.split (ws +:+ String a sep' +:+ rest) (String a sep') = [ws; rest].
Proof.
  intros Hws Hrest. unfold PyStr.split.
  rewrite split_go_pass by done.
  change (String a sep' +:+ rest) with (String a (sep' +:+ rest)).
  cbn [PyStr.split_go String.prefix].
  destruct (ascii_dec a a) as [_|?]; [|done].
  rewrite prefix_append.
  rewrite rev_rev_app. f_equal. cbn [String.length Nat.pred].
  rewrite split_go_skip.
  rewrite <- (string_app_nil_r rest) at 1.
  rewrite split_go_pass by done. cbn [PyStr.split_go].
  by rewrite rev_rev_app.
Qed.

Lemma parse_line_invariant (Q : string -> Prop) acc line :
  no_linebreak line = true ->
  (forall field, no_linebreak field = true -> Q (PyStr.strip field)) ->
  (forall d, d ∈ acc -> Q d) ->
  forall d, d ∈ parse_line acc line -> Q d.
Proof.
  intros Hline Hfield Hacc d. unfold parse_line.
  destruct (PyStr.startswith (PyStr.strip line) "Depends:"); [|by apply Hacc].
  destruct (PyStr.split line "Depends:" !! 1%nat) as [field|] eqn:Hlookup;
    [|by apply Hacc].
  intros [->%elem_of_singleton|Hd]%elem_of_union; [|by apply Hacc].
  apply Hfield.
  pose proof (all_chars_split_go (fun c => negb (PyStr.is_linebreak c))
                "Depends:" O EmptyString line eq_refl Hline) as Hall.
  by apply (proj1 (Forall_lookup _ _) Hall 1%nat field).
Qed.

(** X1: line 37 never raises [IndexError]: on a line that passes the
    test of line 36, [split] gives a second field, and the name taken
    from it is added to the set. *)
Theorem depends_line_adds_name (acc : gset string) (line : string) :
  PyStr.startswith (PyStr.strip line) "Depends:" = true ->
  exists field,
    PyStr.split line "Depends:" !! 1%nat = Some field
    /\ parse_line acc line = {[ PyStr.strip field ]} ∪ acc.
Proof.
  intros Htest.
  destruct (depends_field_in_range line Htest) as [field Hfield].
  exists field. split; [done|].
  unfold parse_line. by rewrite Htest, Hfield.
Qed.

Lemma parse_depends_invariant (Q : string -> Prop) (out : string) :
  (forall field, no_linebreak field = true -> Q (PyStr.strip field)) ->
  forall d, d ∈ parse_depends out -> Q d.
Proof.
  intros Hfield. unfold parse_depends, PyStr.splitlines.
  pose proof (splitlines_go_no_linebreak (String.length out) EmptyString out
                ltac:(lia) eq_refl) as Hlines.
  revert Hlines. generalize (PyStr.splitlines_go EmptyString out) as lines.
  intros lines Hlines.
  assert (forall acc : gset string,
            (forall x, x ∈ acc -> Q x) ->
            forall x, x ∈ foldl parse_line acc lines -> Q x) as Hfold.
  { induction Hlines as [|line lines Hline Hlines IH]; intros acc Hacc;
      [done|].
    cbn [foldl]. apply IH. by apply (parse_line_invariant Q). }
  apply Hfold. intros x Hx. by apply elem_of_empty in Hx.
Qed.

(** X2: every name that the parser records is stripped, so that
    stripping it again changes nothing, and has no line break in it,
    whatever the command printed. *)
Theorem parsed_names_clean (out : string) (d : string) :
  d ∈ parse_depends out ->
  PyStr.strip d = d /\ no_linebreak d = true.
Proof.
  apply (parse_depends_invariant
           (fun x => PyStr.strip x = x /\ no_linebreak x = true)).
  intros field Hfield. split; [apply strip_idemp|].
  by apply all_chars_strip.
Qed.

(** X3: a line made of white space, [Depends:] and a rest without a
    capital D records the stripped rest as the name, nothing else. *)
Theorem depends_line_name (acc : gset string) (ws rest : string) :
  all_space ws = true ->
  no_capital_D rest = true ->
  parse_line acc (ws +:+ "Depends:" +:+ rest)
  = {[ PyStr.strip rest ]} ∪ acc.
Proof.
  intros Hws Hrest.
  assert (all_chars (fun c => negb (Ascii.eqb c "D")) ws = true) as Hws'.
  { revert Hws. apply all_chars_impl. intros c Hc.
    destruct (Ascii.eqb c "D") eqn:Heq; [|done].
    apply Ascii.eqb_eq in Heq as ->. done. }
  unfold parse_line.
  rewrite (split_two_fields "D" "epends:" ws rest Hws' Hrest).
  cbn [lookup list_lookup].
  assert (PyStr.startswith (PyStr.strip (ws +:+ "Depends:" +:+ rest))
            "Depends:" = true) as ->; [|done].
  unfold PyStr.startswith, PyStr.strip. rewrite lstrip_all_space by done.
  change ("Depends:" +:+ rest)
    with (String "D" (String "e" (String "p" (String "e" (String "n"
           (String "d" (String "s" (String ":" rest)))))))).
  cbn [PyStr.lstrip]. change (PyStr.is_space "D") with false. cbv iota.
  rewrite !rstrip_head by done.
  apply (prefix_append "Depends:" (PyStr.rstrip rest)).
Qed.

(** ** Lines 18-45: what the traversal collects *)

Lemma for_each_inv_elem {A S} (P : S -> Prop) (body : A -> S -> option S)
  l st st' :
  (forall x s s', x ∈ l -> P s -> body x s = Some s' -> P s') ->
  P st -> for_each body l st = Some st' -> P st'.
Proof.
  revert st. induction l as [|x l IH]; intros st Hbody HP; simpl.
  - by intros [= <-].
  - destruct (body x st) as [s1|] eqn:H1; [|done]. apply IH.
    + intros y s s' Hy. apply Hbody. by right.
    + apply (Hbody x st s1); [by left|done|done].
Qed.

Section Bound.
Context `{Subprocess} `{SetOrder} (max_depth : Z) (start : string).

Lemma get_deps_within_bound fuel package current_depth st st' :
  1 <= current_depth ->
  at_level start current_depth package ->
  (forall k, k ∈ visited st -> within_bound start max_depth k) ->
  get_deps max_depth fuel package current_depth st = Some st' ->
  forall k, k ∈ visited st' -> within_bound start max_depth k.
Proof.
  revert package current_depth st st'.
  induction fuel as [|fuel IH]; intros package d st st' Hd Hlevel Hst; [done|].
  destruct (get_deps_cases max_depth package d st) as [Hret|[Hle Hv]].
  - rewrite get_deps_return by done. by intros [= <-].
  - rewrite get_deps_expand by done.
    apply (for_each_inv_elem
             (fun s => forall k, k ∈ visited s -> within_bound start max_depth k)).
    + intros dep s s' Hdep Hs. apply IH; [lia| |done].
      apply (at_level_dep start d package); [done|].
      by apply set_iter_elem_of.
    + intros k. unfold expand. cbn [visited].
      intros [->%elem_of_singleton|Hk]%elem_of_union; [|by apply Hst].
      exists d. split; [lia|done].
Qed.

End Bound.

Section Closure.
Context `{Subprocess} `{SetOrder} (max_depth : Z) (R : gset string).
Hypothesis R_closed : forall p, p ∈ R -> direct_dependencies p ⊆ R.
Hypothesis R_small : Z.of_nat (size R) <= max_depth.

(** When the depth bound is at least the number of packages, the test
    on the depth never stops the traversal: the packages whose loops are
    running are pairwise distinct, so there are fewer of them than the
    bound. *)
Lemma get_deps_closed fuel package current_depth st st' stack :
  get_deps max_depth fuel package current_depth st = Some st' ->
  package ∈ R -> stack ⊆ visited st -> visited st ⊆ R ->
  Z.of_nat (size stack) = current_depth - 1 ->
  closed_except stack st ->
  package ∈ visited st' /\ visited st ⊆ visited st' /\ visited st' ⊆ R
  /\ closed_except stack st'.
Proof.
  revert package current_depth st st' stack.
  induction fuel as [|fuel IH];
    intros package d st st' stack Hrun Hp Hstack HR Hsize Hclosed; [done|].
  destruct (get_deps_cases max_depth package d st) as [Hret|[Hle Hv]].
  - rewrite get_deps_return in Hrun by done. injection Hrun as <-.
    split_and!; [|done|done|done].
    destruct (decide (package ∈ visited st)) as [|Hnew]; [done|].
    destruct Hret as [Hgt|]; [|done]. exfalso.
    assert (package ∉ stack) as Hfresh by set_solver.
    assert (size ({[ package ]} ∪ stack) <= size R)%nat as Hle
      by (apply subseteq_size; set_solver).
    rewrite size_union, size_singleton in Hle by set_solver. lia.
  - rewrite get_deps_expand in Hrun by done.
    assert (package ∉ stack) as Hfresh by set_solver.
    set (stack' := {[ package ]} ∪ stack).
    assert (Z.of_nat (size stack') = (d + 1) - 1) as Hsize'.
    { unfold stack'. rewrite size_union, size_singleton by set_solver. lia. }
    assert (forall l s s',
              (forall x, x ∈ l -> x ∈ R) ->
              for_each (fun dep => get_deps max_depth fuel dep (d + 1)) l s
              = Some s' ->
              stack' ⊆ visited s -> visited s ⊆ R -> closed_except stack' s ->
              visited s ⊆ visited s' /\ visited s' ⊆ R
              /\ closed_except stack' s'
              /\ forall x, x ∈ l -> x ∈ visited s') as Hloop.
    { induction l as [|x l IHl]; intros s s' Hl Hfor Hst HsR Hcl.
      - injection Hfor as <-. split_and!; [done|done|done|].
        by intros x ?%elem_of_nil.
      - cbn [for_each] in Hfor.
        destruct (get_deps max_depth fuel x (d + 1) s) as [s1|] eqn:Hx;
          [|done].
        destruct (IH _ _ _ _ _ Hx (Hl x ltac:(by left)) Hst HsR Hsize' Hcl)
          as (Hx1 & Hmono1 & HR1 & Hcl1).
        destruct (IHl s1 s' (fun y Hy => Hl y ltac:(by right)) Hfor
                    ltac:(set_solver) HR1 Hcl1)
          as (Hmono2 & HR2 & Hcl2 & Hall).
        split_and!; [set_solver|done|done|].
        intros y [->|Hy]%elem_of_cons; [set_solver|by apply Hall]. }
    destruct (Hloop (set_iter (direct_dependencies package))
                (expand package st) st') as (Hmono & HR' & Hcl' & Hall).
    + intros x Hx%set_iter_elem_of. by apply (R_closed package).
    + exact Hrun.
    + unfold stack', expand. cbn [visited]. set_solver.
    + unfold expand. cbn [visited]. set_solver.
    + intros q. unfold stack', expand. cbn [visited].
      intros Hq Hq'. assert (q ∈ visited st) as Hqv by set_solver.
      specialize (Hclosed q Hqv ltac:(set_solver)). set_solver.
    + unfold expand in Hmono. cbn [visited] in Hmono.
      split_and!; [set_solver|set_solver|done|].
      intros q Hq Hq'. destruct (decide (q = package)) as [->|Hne].
      * intros x Hx. apply Hall. by apply set_iter_elem_of.
      * apply Hcl'; [done|]. unfold stack'. set_solver.
Qed.

End Closure.

Lemma at_level_visited `{Subprocess} start st level q :
  closed_except ∅ st -> start ∈ visited st ->
  at_level start level q -> q ∈ visited st.
Proof.
  intros Hclosed Hstart. induction 1 as [|level p q _ IH Hq]; [done|].
  apply (Hclosed p IH); [|done]. apply not_elem_of_empty.
Qed.

(** X4: the graph is the metadata source restricted to its keys: every
    entry maps its key to the dependency set of that key.  The keys are
    exactly the visited packages, and the commands that were run are one
    [apt-cache depends] for each key, in the order of the keys, and
    nothing else. *)
Theorem graph_is_source_on_keys `{Subprocess} `{SetOrder}
  (start : string) (max_depth : Z) (repo : string) :
  fetch_dependencies start max_depth repo
  = (fun k => (k, direct_dependencies k))
      <$> dict_keys (fetch_dependencies start max_depth repo)
  /\ calls (fetch_dependencies_state start max_depth repo)
     = apt_cache_depends
         <$> dict_keys (fetch_dependencies start max_depth repo)
  /\ (forall p,
        p ∈ dict_keys (fetch_dependencies start max_depth repo)
        <-> p ∈ visited (fetch_dependencies_state start max_depth repo)).
Proof.
  destruct (fetch_dependencies_state_consistent start max_depth repo)
    as [Hnd Hvis Hcalls Hval].
  unfold fetch_dependencies. split_and!; [|done|by intros p; rewrite Hvis].
  unfold dict_keys in *.
  set (d := dependencies (fetch_dependencies_state start max_depth repo)) in *.
  rewrite <- list_fmap_compose.
  rewrite <- (list_fmap_id d) at 1. apply list_fmap_ext.
  intros i [k v] Hi. simpl.
  assert ((k, v) ∈ d) as Hin by (apply list_elem_of_lookup; eauto).
  assert (k ∈ d.*1) as Hk by (apply list_elem_of_fmap; by exists (k, v)).
  apply (dict_get_elem_of d k v Hnd) in Hin.
  specialize (Hval k Hk). congruence.
Qed.

(** X5: with a depth bound of at least one the starting package is the
    first key of the graph, and its query is the first command. *)
Theorem start_is_first_key `{Subprocess} `{SetOrder}
  (start : string) (max_depth : Z) (repo : string) :
  1 <= max_depth ->
  exists rest,
    fetch_dependencies start max_depth repo
    = (start, direct_dependencies start) :: rest
    /\ calls (fetch_dependencies_state start max_depth repo)
       = apt_cache_depends start :: (apt_cache_depends <$> rest.*1).
Proof.
  intros Hdepth.
  pose proof (fetch_dependencies_run_total (nesting_bound max_depth)
                start max_depth repo ltac:(lia)) as Hrun.
  unfold fetch_dependencies_run, nesting_bound in Hrun.
  rewrite get_deps_expand in Hrun by (done || set_solver).
  assert (consistent (fetch_dependencies_state start max_depth repo)
          /\ exists rest,
               dependencies (fetch_dependencies_state start max_depth repo)
               = (start, direct_dependencies start) :: rest)
    as [Hcons [rest Hrest]].
  { revert Hrun.
    apply (for_each_inv
             (fun s => consistent s
                       /\ exists rest, dependencies s
                            = (start, direct_dependencies start) :: rest)).
    - intros dep s s' Hs.
      apply (get_deps_inv max_depth
               (fun s => consistent s
                         /\ exists rest, dependencies s
                              = (start, direct_dependencies start) :: rest));
        [|done].
      intros p s0 [Hc [rest Hrest]] Hp.
      split; [by apply consistent_expand|].
      unfold expand. cbn [dependencies].
      rewrite dict_setitem_fresh by (by rewrite <- (keys_visited s0 Hc)).
      rewrite Hrest. by eexists.
    - split.
      + apply consistent_expand; [apply consistent_initial|set_solver].
      + by exists []. }
  exists rest. unfold fetch_dependencies. split; [done|].
  rewrite (keys_calls _ Hcons). unfold dict_keys. by rewrite Hrest.
Qed.

(** X6: the graph never holds a package from beyond the depth bound:
    every key lies at some level from 1 to [max_depth] below the starting
    package, and every dependency listed for it one level further down. *)
Theorem keys_within_bound `{Subprocess} `{SetOrder}
  (start : string) (max_depth : Z) (repo : string) (k : string) :
  k ∈ dict_keys (fetch_dependencies start max_depth repo) ->
  within_bound start max_depth k
  /\ forall dep, dep ∈ direct_dependencies k ->
       exists level, 2 <= level <= max_depth + 1 /\ at_level start level dep.
Proof.
  intros Hk.
  destruct (fetch_dependencies_state_consistent start max_depth repo)
    as [_ Hvis _ _].
  apply Hvis in Hk.
  pose proof (fetch_dependencies_run_total (nesting_bound max_depth)
                start max_depth repo ltac:(lia)) as Hrun.
  unfold fetch_dependencies_run in Hrun.
  assert (within_bound start max_depth k) as Hwithin.
  { revert k Hk.
    refine (get_deps_within_bound max_depth start _ _ _ _ _ _
              (at_level_start start) _ Hrun); [lia|].
    intros k Hk. by apply elem_of_empty in Hk. }
  split; [done|].
  destruct Hwithin as (level & Hlevel & Hat).
  intros dep Hdep. exists (level + 1). split; [lia|].
  by apply (at_level_dep start level k).
Qed.

(** X7: when the packages of the index that matter form a set with no
    more elements than the depth bound, closed under dependencies and
    holding the starting package, the bound cuts nothing off: every
    package at any level below the starting package is a key, mapped to
    its dependencies. *)
Theorem large_bound_covers_everything `{Subprocess} `{SetOrder}
  (start : string) (max_depth : Z) (repo : string) (R : gset string)
  (level : Z) (q : string) :
  start ∈ R ->
  (forall p, p ∈ R -> direct_dependencies p ⊆ R) ->
  Z.of_nat (size R) <= max_depth ->
  at_level start level q ->
  q ∈ dict_keys (fetch_dependencies start max_depth repo)
  /\ dict_get (fetch_dependencies start max_depth repo) q
     = Some (direct_dependencies q).
Proof.
  intros Hstart Hclosed Hsmall Hq.
  destruct (fetch_dependencies_state_consistent start max_depth repo)
    as [_ Hvis _ Hval].
  pose proof (fetch_dependencies_run_total (nesting_bound max_depth)
                start max_depth repo ltac:(lia)) as Hrun.
  unfold fetch_dependencies_run in Hrun.
  destruct (get_deps_closed max_depth R Hclosed Hsmall _ _ _ _ _ ∅ Hrun)
    as (Hin & _ & _ & Hcl); [done|done|done|by rewrite size_empty| |].
  { intros p Hp. by apply elem_of_empty in Hp. }
  assert (q ∈ visited (fetch_dependencies_state start max_depth repo)) as Hv
    by by apply (at_level_visited start _ level).
  apply Hvis in Hv. unfold fetch_dependencies. split; [done|by apply Hval].
Qed.

(** X8: of what a query leaves, only the standard output counts: two
    systems whose [apt-cache depends] print the same text for every
    package give the same graph, the same visited set and the same log of
    commands, whatever the return codes and the error output. *)
Theorem only_stdout_matters (H1 H2 : Subprocess) `{SetOrder}
  (start : string) (max_depth : Z) (repo : string) :
  (forall p, stdout (@subprocess_run H1 (apt_cache_depends p))
             = stdout (@subprocess_run H2 (apt_cache_depends p))) ->
  @fetch_dependencies_state H1 _ start max_depth repo
  = @fetch_dependencies_state H2 _ start max_depth repo.
Proof.
  intros Hout. unfold fetch_dependencies_state, fetch_dependencies_run.
  rewrite (get_deps_ext H1 H2); [done|].
  intros p. unfold direct_dependencies. by rewrite Hout.
Qed.

(** ** Lines 47-59: the text of the graph *)

Lemma set_iter_empty `{SetOrder} : set_iter ∅ = [].
Proof. apply Permutation_nil_r. by rewrite set_iter_perm, elements_empty. Qed.

Lemma edges_filter_nonempty `{SetOrder} (G : Dict) :
  edges (filter (fun entry => entry.2 <> ∅) G) = edges G.
Proof.
  induction G as [|[p deps] G IH]; [done|].
  rewrite filter_cons. cbn [snd]. destruct (decide (deps <> ∅)) as [|Hempty].
  - by rewrite !edges_cons, IH.
  - apply dec_stable in Hempty as ->.
    by rewrite edges_cons, set_iter_empty, IH.
Qed.

(** X9: packages with an empty dependency set leave nothing in the
    text: the text of a graph is the text of the graph without them.  A
    graph of such packages alone gives the two markers. *)
Theorem empty_sets_leave_no_trace `{SetOrder} (G : Dict) :
  build_puml_graph G
  = build_puml_graph (filter (fun entry => entry.2 <> ∅) G)
  /\ (Forall (fun entry => entry.2 = ∅) G ->
      build_puml_graph G = startuml +:+ enduml).
Proof.
  split.
  - by rewrite !build_puml_graph_lines, edges_filter_nonempty.
  - intros Hall. rewrite build_puml_graph_lines.
    assert (edges G = []) as ->; [|done].
    induction Hall as [|[p deps] G Hdeps _ IH]; [done|].
    simpl in Hdeps. subst deps. by rewrite edges_cons, set_iter_empty, IH.
Qed.

Lemma splitlines_go_pass body cur t :
  no_linebreak body = true ->
  PyStr.splitlines_go cur (body +:+ t)
  = PyStr.splitlines_go (String.rev_app body cur) t.
Proof.
  revert cur. induction body as [|c body IH]; intros cur Hbody; [done|].
  apply andb_true_iff in Hbody as [Hc Hbody].
  change (String c body +:+ t) with (String c (body +:+ t)).
  cbn [PyStr.splitlines_go]. apply negb_true_iff in Hc. rewrite Hc.
  cbn [String.rev_app]. by apply IH.
Qed.

Lemma splitlines_go_line body t :
  no_linebreak body = true ->
  PyStr.splitlines_go EmptyString (body +:+ PyStr.LF +:+ t)
  = body :: PyStr.splitlines_go EmptyString t.
Proof.
  intros Hbody. rewrite splitlines_go_pass by done.
  change (PyStr.LF +:+ t) with (String "010" t).
  cbn [PyStr.splitlines_go]. change (PyStr.is_linebreak "010") with true.
  cbv iota. rewrite rev_rev_app. f_equal. by destruct t.
Qed.

Lemma splitlines_go_lines bodies t :
  Forall (fun body => no_linebreak body = true) bodies ->
  PyStr.splitlines_go EmptyString
    (join ((fun body => body +:+ PyStr.LF) <$> bodies) +:+ t)
  = bodies ++ PyStr.splitlines_go EmptyString t.
Proof.
  induction 1 as [|body bodies Hbody _ IH]; [done|].
  change (join ((fun body => body +:+ PyStr.LF) <$> body :: bodies))
    with ((body +:+ PyStr.LF)
            +:+ join ((fun body => body +:+ PyStr.LF) <$> bodies)).
  rewrite !string_app_assoc, splitlines_go_line by done.
  cbn [app]. by rewrite IH.
Qed.

Lemma edge_line_statement p d :
  edge_line p d = edge_statement p d +:+ PyStr.LF.
Proof.
  unfold edge_line, edge_statement. by rewrite !string_app_assoc.
Qed.

Lemma edge_statement_no_linebreak p d :
  no_linebreak p = true -> no_linebreak d = true ->
  no_linebreak (edge_statement p d) = true.
Proof.
  intros Hp Hd. unfold edge_statement, no_linebreak in *.
  rewrite !all_chars_app, Hp, Hd. reflexivity.
Qed.

Lemma edges_clean `{SetOrder} (G : Dict) :
  clean_names G ->
  Forall (fun edge => no_linebreak edge.1 = true
                      /\ no_linebreak edge.2 = true) (edges G).
Proof.
  induction 1 as [|[p deps] G [Hp Hdeps] _ IH]; [constructor|].
  rewrite edges_cons. apply Forall_app. split; [|done].
  apply Forall_fmap, Forall_forall. intros d Hd%set_iter_elem_of.
  split; [done|by apply Hdeps].
Qed.

Lemma splitlines_build_puml_graph `{SetOrder} (G : Dict) :
  clean_names G ->
  PyStr.splitlines (build_puml_graph G)
  = "@startuml" :: (uncurry edge_statement <$> edges G) ++ ["@enduml"].
Proof.
  intros Hclean. rewrite build_puml_graph_lines.
  unfold PyStr.splitlines, startuml.
  rewrite string_app_assoc, splitlines_go_line by done. f_equal.
  assert (uncurry edge_line <$> edges G
          = (fun body => body +:+ PyStr.LF)
              <$> (uncurry edge_statement <$> edges G)) as ->.
  { rewrite <- list_fmap_compose. apply list_fmap_ext.
    intros i [p d] _. apply edge_line_statement. }
  rewrite splitlines_go_lines; [done|].
  apply Forall_fmap. eapply Forall_impl; [by apply edges_clean|].
  intros [p d] [Hp Hd]. by apply edge_statement_no_linebreak.
Qed.

(** X10: when no name in the graph has a line break, the text read back
    line by line is the start marker, then for each pair (package,
    dependency) the line with the two quoted names and the arrow, then
    the end marker; the number of lines is two more than the sizes of the
    dependency sets add up to. *)
Theorem serialized_lines `{SetOrder} (G : Dict) :
  clean_names G ->
  PyStr.splitlines (build_puml_graph G)
  = "@startuml" :: (uncurry edge_statement <$> edges G) ++ ["@enduml"]
  /\ length (PyStr.splitlines (build_puml_graph G))
     = (2 + sum_list ((fun entry => size entry.2) <$> G))%nat.
Proof.
  intros Hclean. rewrite splitlines_build_puml_graph by done.
  split; [done|].
  cbn [length]. rewrite length_app, length_fmap, edges_length. simpl. lia.
Qed.

Lemma direct_dependencies_no_linebreak `{Subprocess} p d :
  d ∈ direct_dependencies p -> no_linebreak d = true.
Proof.
  unfold direct_dependencies.
  apply (parse_depends_invariant (fun x => no_linebreak x = true)).
  intros field Hfield. by apply all_chars_strip.
Qed.

Lemma at_level_no_linebreak `{Subprocess} start level k :
  no_linebreak start = true -> at_level start level k ->
  no_linebreak k = true.
Proof.
  intros Hstart [|l p q _ Hq]; [done|].
  by apply (direct_dependencies_no_linebreak p).
Qed.

(** X11: when the name of the starting package has no line break, no
    name in the collected graph has one, so that the text of the graph
    has one line for each marker and each edge. *)
Theorem fetched_text_lines `{Subprocess} `{SetOrder}
  (start : string) (max_depth : Z) (repo : string) :
  no_linebreak start = true ->
  clean_names (fetch_dependencies start max_depth repo)
  /\ PyStr.splitlines (build_puml_graph (fetch_dependencies start max_depth repo))
     = "@startuml"
         :: (uncurry edge_statement
               <$> edges (fetch_dependencies start max_depth repo))
         ++ ["@enduml"].
Proof.
  intros Hstart.
  assert (clean_names (fetch_dependencies start max_depth repo)) as Hclean.
  { destruct (fetch_dependencies_state_consistent start max_depth repo)
      as [Hnd Hvis _ Hval].
    pose proof (fetch_dependencies_run_total (nesting_bound max_depth)
                  start max_depth repo ltac:(lia)) as Hrun.
    unfold fetch_dependencies_run in Hrun.
    unfold clean_names, fetch_dependencies. apply Forall_forall.
    intros [k v] Hin.
    assert (k ∈ dict_keys
                  (dependencies (fetch_dependencies_state start max_depth repo)))
      as Hk by (apply list_elem_of_fmap; by exists (k, v)).
    split.
    - apply Hvis in Hk.
      destruct (get_deps_within_bound max_depth start
                  (nesting_bound max_depth) start 1 initial_state _
                  ltac:(lia) (at_level_start start)
                  ltac:(by intros ? ?%elem_of_empty) Hrun k Hk)
        as (level & _ & Hat).
      by apply (at_level_no_linebreak start level).
    - apply (dict_get_elem_of _ k v Hnd) in Hin.
      rewrite (Hval k Hk) in Hin. injection Hin as <-.
      intros dep. apply direct_dependencies_no_linebreak. }
  split; [done|by apply splitlines_build_puml_graph].
Qed.

(** ** Lines 88-118: what a run does *)


(** X13: with a depth bound of zero or less the program runs no command
    and writes no file: it prints that no dependencies were found for the
    package and ends with status 1. *)
Theorem main_nonpositive_depth `{Subprocess} `{SetOrder} `{PathLib}
  (args : Args) :
  depth args <= 0 ->
  main args = ([PrintErr (no_dependencies_message args)], 1).
Proof.
  intros Hdepth. unfold main.
  by rewrite fetch_dependencies_state_depth_nonpositive.
Qed.

(** ** Depth bound two *)

Lemma at_level_positive `{Subprocess} start level k :
  at_level start level k -> 1 <= level.
Proof. induction 1; lia. Qed.

Lemma at_level_one `{Subprocess} start level k :
  at_level start level k -> level = 1 -> k = start.
Proof.
  intros [|l p q Hp _]; [done|]. apply at_level_positive in Hp. lia.
Qed.

Lemma at_level_two `{Subprocess} start level k :
  at_level start level k -> level = 2 -> k ∈ direct_dependencies start.
Proof.
  intros [|l p q Hp Hq]; [done|]. intros Hl.
  by rewrite <- (at_level_one start l p Hp ltac:(lia)).
Qed.

(** X15: with depth bound two the keys of the graph are the starting
    package and its direct dependencies, no more and no less, in whatever
    order the dependencies are taken. *)
Theorem depth_two_keys `{Subprocess} `{SetOrder}
  (start repo : string) (k : string) :
  k ∈ dict_keys (fetch_dependencies start 2 repo)
  <-> k = start \/ k ∈ direct_dependencies start.
Proof.
  destruct (fetch_dependencies_state_consistent start 2 repo)
    as [_ Hvis _ _].
  unfold fetch_dependencies. rewrite <- Hvis. split.
  - intros Hk.
    pose proof (fetch_dependencies_run_total (nesting_bound 2)
                  start 2 repo ltac:(lia)) as Hrun.
    unfold fetch_dependencies_run in Hrun.
    destruct (get_deps_within_bound 2 start (nesting_bound 2) start 1
                initial_state _ ltac:(lia) (at_level_start start)
                ltac:(by intros ? ?%elem_of_empty) Hrun k Hk)
      as (level & Hlevel & Hat).
    destruct (decide (level = 1)) as [Hone|Hnot].
    + left. by apply (at_level_one start level).
    + right. apply (at_level_two start level); [done|lia].
  - intros [->|Hdep].
    + by apply start_visited.
    + by apply direct_dependencies_visited.
Qed.

(** ** The further properties at concrete inputs *)

Lemma depends_line_adds_name_libc6 :
  PyStr.startswith (PyStr.strip "  Depends: libc6") "Depends:" = true
  /\ exists field,
       PyStr.split "  Depends: libc6" "Depends:" !! 1%nat = Some field
       /\ parse_line ∅ "  Depends: libc6" = {[ PyStr.strip field ]} ∪ ∅.
Proof.
  split; [reflexivity|].
  apply (depends_line_adds_name ∅ "  Depends: libc6"). reflexivity.
Defined.

Lemma parsed_names_clean_vim :
  "vim-common" ∈ parse_depends vim_output
  /\ PyStr.strip "vim-common" = "vim-common"
  /\ no_linebreak "vim-common" = true.
Proof.
  assert ("vim-common" ∈ parse_depends vim_output) as Hin by by_evaluation.
  split; [exact Hin|].
  exact (parsed_names_clean vim_output "vim-common" Hin).
Defined.

Lemma depends_line_name_libc6 :
  all_space "  " = true
  /\ no_capital_D " libc6  " = true
  /\ parse_line ∅ ("  " +:+ "Depends:" +:+ " libc6  ")
     = {[ PyStr.strip " libc6  " ]} ∪ ∅.
Proof.
  split; [reflexivity|]. split; [reflexivity|].
  apply (depends_line_name ∅ "  " " libc6  "); reflexivity.
Defined.

Lemma start_is_first_key_cycle :
  1 <= 5
  /\ exists rest,
       @fetch_dependencies cyclic_source elements_order "A" 5 EmptyString
       = ("A", @direct_dependencies cyclic_source "A") :: rest
       /\ calls (@fetch_dependencies_state cyclic_source elements_order "A" 5
                   EmptyString)
          = apt_cache_depends "A" :: (apt_cache_depends <$> rest.*1).
Proof.
  split; [lia|].
  apply (@start_is_first_key cyclic_source elements_order). lia.
Defined.

Lemma keys_within_bound_libbar :
  "libbar" ∈ dict_keys (@fetch_dependencies app_source elements_order
                          "app" 2 EmptyString)
  /\ @within_bound app_source "app" 2 "libbar".
Proof.
  assert ("libbar" ∈ dict_keys (@fetch_dependencies app_source elements_order
                                  "app" 2 EmptyString)) as Hk
    by by_evaluation.
  split; [exact Hk|].
  exact (proj1 (@keys_within_bound app_source elements_order "app" 2
                  EmptyString "libbar" Hk)).
Defined.

Lemma large_bound_covers_everything_shortcut :
  "A" ∈ shortcut_packages
  /\ (forall p, p ∈ shortcut_packages ->
        @direct_dependencies shortcut_source p ⊆ shortcut_packages)
  /\ Z.of_nat (size shortcut_packages) <= 6
  /\ @at_level shortcut_source "A" 3 "D"
  /\ "D" ∈ dict_keys (@fetch_dependencies shortcut_source elements_order
                        "A" 6 EmptyString).
Proof.
  assert ("A" ∈ shortcut_packages) as Hstart by by_evaluation.
  assert (forall p, p ∈ shortcut_packages ->
            @direct_dependencies shortcut_source p ⊆ shortcut_packages)
    as Hclosed.
  { change (set_Forall
              (fun p => @direct_dependencies shortcut_source p
                        ⊆ shortcut_packages) shortcut_packages).
    by_evaluation. }
  assert (Z.of_nat (size shortcut_packages) <= 6) as Hsmall by by_evaluation.
  assert (@at_level shortcut_source "A" 3 "D") as Hlevel.
  { apply (at_level_dep "A" 2 "B"); [|by_evaluation].
    apply (at_level_dep "A" 1 "A"); [|by_evaluation].
    apply at_level_start. }
  split_and!; [exact Hstart|exact Hclosed|exact Hsmall|exact Hlevel|].
  exact (proj1 (@large_bound_covers_everything shortcut_source elements_order
                  "A" 6 EmptyString shortcut_packages 3 "D"
                  Hstart Hclosed Hsmall Hlevel)).
Defined.

Lemma only_stdout_matters_orphan :
  (forall p,
     stdout (@subprocess_run orphan_source (apt_cache_depends p))
     = stdout (@subprocess_run quiet_orphan_source (apt_cache_depends p)))
  /\ @fetch_dependencies_state orphan_source elements_order "app" 2
       EmptyString
     = @fetch_dependencies_state quiet_orphan_source elements_order "app" 2
         EmptyString.
Proof.
  assert (forall p,
     stdout (@subprocess_run orphan_source (apt_cache_depends p))
     = stdout (@subprocess_run quiet_orphan_source (apt_cache_depends p)))
    as Hout.
  { intros p. unfold quiet_orphan_source, with_answer. cbn [subprocess_run].
    destruct (decide (apt_cache_depends p = apt_cache_depends "libfoo"))
      as [Heq|_]; [|reflexivity].
    injection Heq as ->. reflexivity. }
  split; [exact Hout|].
  exact (only_stdout_matters orphan_source quiet_orphan_source
           "app" 2 EmptyString Hout).
Defined.

Lemma serialized_lines_app :
  clean_names app_graph
  /\ PyStr.splitlines (@build_puml_graph elements_order app_graph)
     = "@startuml"
         :: (uncurry edge_statement <$> @edges elements_order app_graph)
         ++ ["@enduml"]
  /\ length (PyStr.splitlines (@build_puml_graph elements_order app_graph))
     = 5%nat.
Proof.
  assert (clean_names app_graph) as Hclean.
  { unfold clean_names, app_graph.
    repeat constructor; intros dep Hdep; cbn [snd] in Hdep.
    - apply elem_of_union in Hdep as [Hdep|Hdep];
        apply elem_of_singleton in Hdep as ->; reflexivity.
    - by apply elem_of_empty in Hdep.
    - apply elem_of_singleton in Hdep as ->. reflexivity. }
  split; [exact Hclean|].
  exact (@serialized_lines elements_order app_graph Hclean).
Defined.

Lemma fetched_text_lines_app :
  no_linebreak "app" = true
  /\ PyStr.splitlines
       (@build_puml_graph elements_order
          (@fetch_dependencies app_source elements_order "app" 2 EmptyString))
     = "@startuml"
         :: (uncurry edge_statement
               <$> @edges elements_order
                     (@fetch_dependencies app_source elements_order "app" 2
                        EmptyString))
         ++ ["@enduml"].
Proof.
  split; [reflexivity|].
  exact (proj2 (@fetched_text_lines app_source elements_order "app" 2
                  EmptyString eq_refl)).
Defined.

Lemma main_nonpositive_depth_zero :
  depth zero_depth_args <= 0
  /\ @main app_source elements_order flat_paths zero_depth_args
     = ([PrintErr "No dependencies found for package app"], 1).
Proof.
  assert (depth zero_depth_args <= 0) as Hdepth by (simpl; lia).
  split; [exact Hdepth|].
  exact (@main_nonpositive_depth app_source elements_order flat_paths
           zero_depth_args Hdepth).
Defined.


(** ** The text of a graph, line by line *)

(** C5, as amended: for a graph in which no package name has a line
    break, the text is the start marker [@startuml] on a line, then for
    each pair (package, dependency) one line with the two names between
    double quotes around the arrow [-->], then the end marker [@enduml].
    The pairs behind the edge lines are pairwise distinct and are exactly
    the pairs with the dependency in the set of the package, so that the
    text has two lines more than the sizes of the dependency sets add up
    to.  For the empty graph the text is the two markers alone. *)
Theorem serialize_one_line_per_pair `{SetOrder} (G : Dict) :
  NoDup (dict_keys G) ->
  clean_names G ->
  build_puml_graph G
  = "@startuml"
      +:+ String "010"
            (join ((fun edge : string * string =>
                      String "034"
                        (edge.1 +:+ String "034"
                           (" --> " +:+ String "034"
                              (edge.2 +:+ String "034"
                                 (String "010" EmptyString)))))
                     <$> edges G)
             +:+ "@enduml")
  /\ PyStr.splitlines (build_puml_graph G)
     = "@startuml"
         :: ((fun edge : string * string =>
                String "034"
                  (edge.1 +:+ String "034"
                     (" --> " +:+ String "034"
                        (edge.2 +:+ String "034" EmptyString))))
               <$> edges G)
         ++ ["@enduml"]
  /\ NoDup (edges G)
  /\ (forall p dep,
        (p, dep) ∈ edges G
        <-> exists deps, dict_get G p = Some deps /\ dep ∈ deps)
  /\ length (PyStr.splitlines (build_puml_graph G))
     = (2 + sum_list ((fun entry => size entry.2) <$> G))%nat
  /\ build_puml_graph [] = "@startuml" +:+ String "010" "@enduml".
Proof.
  intros Hnd Hclean. split_and!.
  - rewrite build_puml_graph_lines. unfold startuml.
    rewrite string_app_assoc. f_equal.
    change (PyStr.LF +:+ ?rest) with (String "010" rest).
    f_equal. f_equal. f_equal.
    apply list_fmap_ext. by intros i [p dep] _.
  - rewrite splitlines_build_puml_graph by done. f_equal. f_equal.
    apply list_fmap_ext. by intros i [p dep] _.
  - by apply edges_nodup.
  - intros p dep. rewrite elem_of_edges.
    by setoid_rewrite (dict_get_elem_of G p _ Hnd).
  - rewrite splitlines_build_puml_graph by done.
    cbn [length]. rewrite length_app, length_fmap, edges_length. simpl. lia.
  - reflexivity.
Qed.

(** C5 as stated fails for a graph with a line feed in a name: the one
    pair of [linebreak_graph] gives a text of four lines, two of them
    between the markers, so that no list of edge lines between the
    markers has as many lines as the dependency sets have elements. *)
Lemma serialize_line_break_in_name :
  NoDup (dict_keys linebreak_graph)
  /\ sum_list ((fun entry => size entry.2) <$> linebreak_graph) = 1%nat
  /\ length (PyStr.splitlines (@build_puml_graph elements_order
                                 linebreak_graph)) = 4%nat
  /\ ~ (exists lines,
          PyStr.splitlines (@build_puml_graph elements_order linebreak_graph)
          = "@startuml" :: lines ++ ["@enduml"]
          /\ length lines
             = sum_list ((fun entry => size entry.2) <$> linebreak_graph)).
Proof.
  split_and!.
  - by_evaluation.
  - vm_compute. reflexivity.
  - vm_compute. reflexivity.
  - intros (lines & Htext & Hcount).
    apply (f_equal length) in Htext.
    cbn [length] in Htext. rewrite length_app in Htext.
    assert (length (PyStr.splitlines (@build_puml_graph elements_order
                                        linebreak_graph)) = 4%nat) as Hfour
      by (vm_compute; reflexivity).
    assert (sum_list ((fun entry => size entry.2) <$> linebreak_graph)
            = 1%nat) as Hone by (vm_compute; reflexivity).
    rewrite Hfour in Htext. rewrite Hone in Hcount.
    simpl in Htext. lia.
Qed.

Lemma serialize_one_line_per_pair_app :
  NoDup (dict_keys app_graph)
  /\ clean_names app_graph
  /\ length (PyStr.splitlines (@build_puml_graph elements_order app_graph))
     = 5%nat
  /\ NoDup (@edges elements_order app_graph).
Proof.
  assert (NoDup (dict_keys app_graph)) as Hnd by by_evaluation.
  assert (clean_names app_graph) as Hclean.
  { unfold clean_names, app_graph.
    repeat constructor; intros dep Hdep; cbn [snd] in Hdep.
    - apply elem_of_union in Hdep as [Hdep|Hdep];
        apply elem_of_singleton in Hdep as ->; reflexivity.
    - by apply elem_of_empty in Hdep.
    - apply elem_of_singleton in Hdep as ->. reflexivity. }
  split; [exact Hnd|]. split; [exact Hclean|].
  destruct (@serialize_one_line_per_pair elements_order app_graph Hnd Hclean)
    as (_ & _ & Hedges & _ & Hcount & _).
  split; [exact Hcount|exact Hedges].
Defined.

(** ** A run with the ways in which it is cut short *)

Lemma run_until_fault_spec `{Faults} (commands : list (list string)) :
  (run_until_fault commands = (commands, true)
   /\ Forall (fun command => run_returns command = true) commands)
  \/ (exists started, run_until_fault commands = (started, false)
      /\ ~ Forall (fun command => run_returns command = true) commands).
Proof.
  induction commands as [|c cs IH]; [left; by split|].
  cbn [run_until_fault]. destruct (run_returns c) eqn:Hc.
  - destruct IH as [[-> Hall]|(started & -> & Hnot)].
    + left. split; [done|by constructor].
    + right. exists (c :: started). split; [done|].
      by intros [_ ?]%Forall_cons.
  - right. exists []. split; [done|].
    intros [Hc' _]%Forall_cons. congruence.
Qed.

(** When nothing goes wrong the run is the one of [main]. *)
Lemma main_io_no_faults `{Subprocess} `{SetOrder} `{PathLib} (args : Args) :
  @main_io _ _ _ no_faults (Parsed args)
  = ((main args).1, Exited (main args).2).
Proof.
  unfold main_io, main.
  destruct (@run_until_fault_spec no_faults
              (calls (fetch_dependencies_state (package args) (depth args)
                        (repo args))))
    as [[-> _]|(started & _ & Hnot)].
  - unfold save_puml_file_io, render_graph_io.
    cbn [negb has_name open_succeeds run_returns no_faults].
    destruct (dict_is_empty _); [done|].
    by destruct (render_graph _ _ _) as [rendered [status|]].
  - destruct Hnot. by apply Forall_forall.
Qed.




(** The renderer is not installed: the queries are made and the file is
    written, then the run ends with the exception, without a message and
    with status 1. *)
Example run_missing_renderer :
  @main_io app_source elements_order flat_paths missing_renderer
    (Parsed app_args)
  = ([Run ["apt-cache"; "depends"; "app"];
      Run ["apt-cache"; "depends"; "libfoo"];
      Run ["apt-cache"; "depends"; "libbar"];
      WriteFile "graph.puml"
        (@build_puml_graph elements_order
           (@fetch_dependencies app_source elements_order "app" 2
              ubuntu_archive))], Raised InSubprocessRun)
  /\ exit_status
       (@main_io app_source elements_order flat_paths missing_renderer
          (Parsed app_args)).2 = 1.
Proof. split; vm_compute; reflexivity. Qed.

(** The directory of the output is missing and the renderer would have
    returned 0: the status is 1. *)
Example exit_status_missing_directory :
  exit_status
    (@main_io app_source elements_order flat_paths missing_directory
       (Parsed app_args)).2 = 1
  /\ returncode
       (@subprocess_run app_source
          (@plantuml_command flat_paths "graph.puml" "graph" "plantuml")) = 0.
Proof. split; vm_compute; reflexivity. Qed.

(** A usage error ends the run with status 2 before anything is done. *)
Example exit_status_usage_error :
  @main_io app_source elements_order flat_paths no_faults
    (UsageError "the following arguments are required: --package")
  = ([PrintErr "the following arguments are required: --package"], Exited 2).
Proof. reflexivity. Qed.
